(** * nmc_met_map: model-directory lookup and model file names

    A shallow embedding of [nmc_met_map]: [utility.model_filename], the
    [data_dirs] lookup that opens [mesoscale.cref_uv850],
    [synoptic.gh500_uv850_mslp] and [qpf.qpf_24h], and the four plotting
    routines up to their drawing.

    A Python [str] that a caller supplies is a [text], a list of Unicode
    code points; the [str] literals of the source, all ASCII, are written
    as Rocq strings and enter a [text] through [txt].  Python integers are
    [Z].  A call either returns a value or raises, which is the [result]
    type below.  The one setting of the interpreter that the code depends
    on, the limit on the digits of an integer turned into text, is an
    argument of everything that formats an integer. *)

From Stdlib Require Import Bool Arith List ZArith NArith Lia.
From Stdlib Require Import Ascii String.
Import ListNotations.

Local Open Scope string_scope.

(** ** Python values and exceptions *)

(** A [str]: its code points. *)
Definition text : Type := list N.

(** A literal of the source as a [str]. *)
Definition txt (s : string) : text := map N_of_ascii (list_ascii_of_string s).

Infix "+++" := (@app N) (at level 60, right associativity).

Fixpoint text_eqb (s t : text) : bool :=
  match s, t with
  | [], [] => true
  | c :: s', d :: t' => (c =? d)%N && text_eqb s' t'
  | _, _ => false
  end.

(** [datetime.datetime]: the fields the constructor stores. *)
Record datetime : Type := mk_datetime {
  year : N;
  month : N;
  day : N;
  hour : N;
  minute : N;
  second : N;
  microsecond : N
}.

(** The arguments the routines can be handed. *)
Inductive pyval : Type :=
| PyNone
| PyInt (z : Z)
| PyStr (s : text)
| PyDatetime (d : datetime).

Inductive exn : Type :=
| KeyError (key : text)
| ValueError (msg : string)
| AttributeError (attr : string)
| TypeError (msg : string)
| IndexError.

Inductive result (A : Type) : Type :=
| Ok (a : A)
| Raise (e : exn).

Arguments Ok {A} a.
Arguments Raise {A} e.

Definition bind {A B : Type} (r : result A) (k : A -> result B) : result B :=
  match r with
  | Ok a => k a
  | Raise e => Raise e
  end.

Notation "x <- r ;; k" := (bind r (fun x => k))
  (at level 61, r at next level, right associativity).

(** [try: body except KeyError: handler]. *)
Definition try_except_KeyError {A : Type} (body handler : result A) : result A :=
  match body with
  | Raise (KeyError _) => handler
  | other => other
  end.

(** ** Text primitives: [str.strip], [str.upper] *)

(** [str.isspace] on one character, which is what [str.strip] removes:
    TAB to CR, FS to US and the blank, then NEL, the no-break space and
    the white space of the Unicode general punctuation and CJK blocks. *)
Definition is_space (c : N) : bool :=
  (((0x09 <=? c) && (c <=? 0x0D)) || ((0x1C <=? c) && (c <=? 0x20))
   || (c =? 0x85) || (c =? 0xA0) || (c =? 0x1680)
   || ((0x2000 <=? c) && (c <=? 0x200A))
   || (c =? 0x2028) || (c =? 0x2029) || (c =? 0x202F) || (c =? 0x205F)
   || (c =? 0x3000))%N.

(** The characters that [str.upper] changes, each with what it becomes
    (one to three characters): the upper-case mappings of Unicode 14.0,
    simple and special, as CPython 3.11 applies them character by
    character. *)
Definition upper_table : list (N * text) :=
  [(97, [65]); (98, [66]); (99, [67]); (100, [68]); (101, [69]); (102, [70]);
   (103, [71]); (104, [72]); (105, [73]); (106, [74]); (107, [75]);
   (108, [76]); (109, [77]); (110, [78]); (111, [79]); (112, [80]);
   (113, [81]); (114, [82]); (115, [83]); (116, [84]); (117, [85]);
   (118, [86]); (119, [87]); (120, [88]); (121, [89]); (122, [90]);
   (181, [924]); (223, [83; 83]); (224, [192]); (225, [193]); (226, [194]);
   (227, [195]); (228, [196]); (229, [197]); (230, [198]); (231, [199]);
   (232, [200]); (233, [201]); (234, [202]); (235, [203]); (236, [204]);
   (237, [205]); (238, [206]); (239, [207]); (240, [208]); (241, [209]);
   (242, [210]); (243, [211]); (244, [212]); (245, [213]); (246, [214]);
   (248, [216]); (249, [217]); (250, [218]); (251, [219]); (252, [220]);
   (253, [221]); (254, [222]); (255, [376]); (257, [256]); (259, [258]);
   (261, [260]); (263, [262]); (265, [264]); (267, [266]); (269, [268]);
   (271, [270]); (273, [272]); (275, [274]); (277, [276]); (279, [278]);
   (281, [280]); (283, [282]); (285, [284]); (287, [286]); (289, [288]);
   (291, [290]); (293, [292]); (295, [294]); (297, [296]); (299, [298]);
   (301, [300]); (303, [302]); (305, [73]); (307, [306]); (309, [308]);
   (311, [310]); (314, [313]); (316, [315]); (318, [317]); (320, [319]);
   (322, [321]); (324, [323]); (326, [325]); (328, [327]); (329, [700; 78]);
   (331, [330]); (333, [332]); (335, [334]); (337, [336]); (339, [338]);
   (341, [340]); (343, [342]); (345, [344]); (347, [346]); (349, [348]);
   (351, [350]); (353, [352]); (355, [354]); (357, [356]); (359, [358]);
   (361, [360]); (363, [362]); (365, [364]); (367, [366]); (369, [368]);
   (371, [370]); (373, [372]); (375, [374]); (378, [377]); (380, [379]);
   (382, [381]); (383, [83]); (384, [579]); (387, [386]); (389, [388]);
   (392, [391]); (396, [395]); (402, [401]); (405, [502]); (409, [408]);
   (410, [573]); (414, [544]); (417, [416]); (419, [418]); (421, [420]);
   (424, [423]); (429, [428]); (432, [431]); (436, [435]); (438, [437]);
   (441, [440]); (445, [444]); (447, [503]); (453, [452]); (454, [452]);
   (456, [455]); (457, [455]); (459, [458]); (460, [458]); (462, [461]);
   (464, [463]); (466, [465]); (468, [467]); (470, [469]); (472, [471]);
   (474, [473]); (476, [475]); (477, [398]); (479, [478]); (481, [480]);
   (483, [482]); (485, [484]); (487, [486]); (489, [488]); (491, [490]);
   (493, [492]); (495, [494]); (496, [74; 780]); (498, [497]); (499, [497]);
   (501, [500]); (505, [504]); (507, [506]); (509, [508]); (511, [510]);
   (513, [512]); (515, [514]); (517, [516]); (519, [518]); (521, [520]);
   (523, [522]); (525, [524]); (527, [526]); (529, [528]); (531, [530]);
   (533, [532]); (535, [534]); (537, [536]); (539, [538]); (541, [540]);
   (543, [542]); (547, [546]); (549, [548]); (551, [550]); (553, [552]);
   (555, [554]); (557, [556]); (559, [558]); (561, [560]); (563, [562]);
   (572, [571]); (575, [11390]); (576, [11391]); (578, [577]); (583, [582]);
   (585, [584]); (587, [586]); (589, [588]); (591, [590]); (592, [11375]);
   (593, [11373]); (594, [11376]); (595, [385]); (596, [390]); (598, [393]);
   (599, [394]); (601, [399]); (603, [400]); (604, [42923]); (608, [403]);
   (609, [42924]); (611, [404]); (613, [42893]); (614, [42922]); (616, [407]);
   (617, [406]); (618, [42926]); (619, [11362]); (620, [42925]); (623, [412]);
   (625, [11374]); (626, [413]); (629, [415]); (637, [11364]); (640, [422]);
   (642, [42949]); (643, [425]); (647, [42929]); (648, [430]); (649, [580]);
   (650, [433]); (651, [434]); (652, [581]); (658, [439]); (669, [42930]);
   (670, [42928]); (837, [921]); (881, [880]); (883, [882]); (887, [886]);
   (891, [1021]); (892, [1022]); (893, [1023]); (912, [921; 776; 769]);
   (940, [902]); (941, [904]); (942, [905]); (943, [906]);
   (944, [933; 776; 769]); (945, [913]); (946, [914]); (947, [915]);
   (948, [916]); (949, [917]); (950, [918]); (951, [919]); (952, [920]);
   (953, [921]); (954, [922]); (955, [923]); (956, [924]); (957, [925]);
   (958, [926]); (959, [927]); (960, [928]); (961, [929]); (962, [931]);
   (963, [931]); (964, [932]); (965, [933]); (966, [934]); (967, [935]);
   (968, [936]); (969, [937]); (970, [938]); (971, [939]); (972, [908]);
   (973, [910]); (974, [911]); (976, [914]); (977, [920]); (981, [934]);
   (982, [928]); (983, [975]); (985, [984]); (987, [986]); (989, [988]);
   (991, [990]); (993, [992]); (995, [994]); (997, [996]); (999, [998]);
   (1001, [1000]); (1003, [1002]); (1005, [1004]); (1007, [1006]);
   (1008, [922]); (1009, [929]); (1010, [1017]); (1011, [895]); (1013, [917]);
   (1016, [1015]); (1019, [1018]); (1072, [1040]); (1073, [1041]);
   (1074, [1042]); (1075, [1043]); (1076, [1044]); (1077, [1045]);
   (1078, [1046]); (1079, [1047]); (1080, [1048]); (1081, [1049]);
   (1082, [1050]); (1083, [1051]); (1084, [1052]); (1085, [1053]);
   (1086, [1054]); (1087, [1055]); (1088, [1056]); (1089, [1057]);
   (1090, [1058]); (1091, [1059]); (1092, [1060]); (1093, [1061]);
   (1094, [1062]); (1095, [1063]); (1096, [1064]); (1097, [1065]);
   (1098, [1066]); (1099, [1067]); (1100, [1068]); (1101, [1069]);
   (1102, [1070]); (1103, [1071]); (1104, [1024]); (1105, [1025]);
   (1106, [1026]); (1107, [1027]); (1108, [1028]); (1109, [1029]);
   (1110, [1030]); (1111, [1031]); (1112, [1032]); (1113, [1033]);
   (1114, [1034]); (1115, [1035]); (1116, [1036]); (1117, [1037]);
   (1118, [1038]); (1119, [1039]); (1121, [1120]); (1123, [1122]);
   (1125, [1124]); (1127, [1126]); (1129, [1128]); (1131, [1130]);
   (1133, [1132]); (1135, [1134]); (1137, [1136]); (1139, [1138]);
   (1141, [1140]); (1143, [1142]); (1145, [1144]); (1147, [1146]);
   (1149, [1148]); (1151, [1150]); (1153, [1152]); (1163, [1162]);
   (1165, [1164]); (1167, [1166]); (1169, [1168]); (1171, [1170]);
   (1173, [1172]); (1175, [1174]); (1177, [1176]); (1179, [1178]);
   (1181, [1180]); (1183, [1182]); (1185, [1184]); (1187, [1186]);
   (1189, [1188]); (1191, [1190]); (1193, [1192]); (1195, [1194]);
   (1197, [1196]); (1199, [1198]); (1201, [1200]); (1203, [1202]);
   (1205, [1204]); (1207, [1206]); (1209, [1208]); (1211, [1210]);
   (1213, [1212]); (1215, [1214]); (1218, [1217]); (1220, [1219]);
   (1222, [1221]); (1224, [1223]); (1226, [1225]); (1228, [1227]);
   (1230, [1229]); (1231, [1216]); (1233, [1232]); (1235, [1234]);
   (1237, [1236]); (1239, [1238]); (1241, [1240]); (1243, [1242]);
   (1245, [1244]); (1247, [1246]); (1249, [1248]); (1251, [1250]);
   (1253, [1252]); (1255, [1254]); (1257, [1256]); (1259, [1258]);
   (1261, [1260]); (1263, [1262]); (1265, [1264]); (1267, [1266]);
   (1269, [1268]); (1271, [1270]); (1273, [1272]); (1275, [1274]);
   (1277, [1276]); (1279, [1278]); (1281, [1280]); (1283, [1282]);
   (1285, [1284]); (1287, [1286]); (1289, [1288]); (1291, [1290]);
   (1293, [1292]); (1295, [1294]); (1297, [1296]); (1299, [1298]);
   (1301, [1300]); (1303, [1302]); (1305, [1304]); (1307, [1306]);
   (1309, [1308]); (1311, [1310]); (1313, [1312]); (1315, [1314]);
   (1317, [1316]); (1319, [1318]); (1321, [1320]); (1323, [1322]);
   (1325, [1324]); (1327, [1326]); (1377, [1329]); (1378, [1330]);
   (1379, [1331]); (1380, [1332]); (1381, [1333]); (1382, [1334]);
   (1383, [1335]); (1384, [1336]); (1385, [1337]); (1386, [1338]);
   (1387, [1339]); (1388, [1340]); (1389, [1341]); (1390, [1342]);
   (1391, [1343]); (1392, [1344]); (1393, [1345]); (1394, [1346]);
   (1395, [1347]); (1396, [1348]); (1397, [1349]); (1398, [1350]);
   (1399, [1351]); (1400, [1352]); (1401, [1353]); (1402, [1354]);
   (1403, [1355]); (1404, [1356]); (1405, [1357]); (1406, [1358]);
   (1407, [1359]); (1408, [1360]); (1409, [1361]); (1410, [1362]);
   (1411, [1363]); (1412, [1364]); (1413, [1365]); (1414, [1366]);
   (1415, [1333; 1362]); (4304, [7312]); (4305, [7313]); (4306, [7314]);
   (4307, [7315]); (4308, [7316]); (4309, [7317]); (4310, [7318]);
   (4311, [7319]); (4312, [7320]); (4313, [7321]); (4314, [7322]);
   (4315, [7323]); (4316, [7324]); (4317, [7325]); (4318, [7326]);
   (4319, [7327]); (4320, [7328]); (4321, [7329]); (4322, [7330]);
   (4323, [7331]); (4324, [7332]); (4325, [7333]); (4326, [7334]);
   (4327, [7335]); (4328, [7336]); (4329, [7337]); (4330, [7338]);
   (4331, [7339]); (4332, [7340]); (4333, [7341]); (4334, [7342]);
   (4335, [7343]); (4336, [7344]); (4337, [7345]); (4338, [7346]);
   (4339, [7347]); (4340, [7348]); (4341, [7349]); (4342, [7350]);
   (4343, [7351]); (4344, [7352]); (4345, [7353]); (4346, [7354]);
   (4349, [7357]); (4350, [7358]); (4351, [7359]); (5112, [5104]);
   (5113, [5105]); (5114, [5106]); (5115, [5107]); (5116, [5108]);
   (5117, [5109]); (7296, [1042]); (7297, [1044]); (7298, [1054]);
   (7299, [1057]); (7300, [1058]); (7301, [1058]); (7302, [1066]);
   (7303, [1122]); (7304, [42570]); (7545, [42877]); (7549, [11363]);
   (7566, [42950]); (7681, [7680]); (7683, [7682]); (7685, [7684]);
   (7687, [7686]); (7689, [7688]); (7691, [7690]); (7693, [7692]);
   (7695, [7694]); (7697, [7696]); (7699, [7698]); (7701, [7700]);
   (7703, [7702]); (7705, [7704]); (7707, [7706]); (7709, [7708]);
   (7711, [7710]); (7713, [7712]); (7715, [7714]); (7717, [7716]);
   (7719, [7718]); (7721, [7720]); (7723, [7722]); (7725, [7724]);
   (7727, [7726]); (7729, [7728]); (7731, [7730]); (7733, [7732]);
   (7735, [7734]); (7737, [7736]); (7739, [7738]); (7741, [7740]);
   (7743, [7742]); (7745, [7744]); (7747, [7746]); (7749, [7748]);
   (7751, [7750]); (7753, [7752]); (7755, [7754]); (7757, [7756]);
   (7759, [7758]); (7761, [7760]); (7763, [7762]); (7765, [7764]);
   (7767, [7766]); (7769, [7768]); (7771, [7770]); (7773, [7772]);
   (7775, [7774]); (7777, [7776]); (7779, [7778]); (7781, [7780]);
   (7783, [7782]); (7785, [7784]); (7787, [7786]); (7789, [7788]);
   (7791, [7790]); (7793, [7792]); (7795, [7794]); (7797, [7796]);
   (7799, [7798]); (7801, [7800]); (7803, [7802]); (7805, [7804]);
   (7807, [7806]); (7809, [7808]); (7811, [7810]); (7813, [7812]);
   (7815, [7814]); (7817, [7816]); (7819, [7818]); (7821, [7820]);
   (7823, [7822]); (7825, [7824]); (7827, [7826]); (7829, [7828]);
   (7830, [72; 817]); (7831, [84; 776]); (7832, [87; 778]); (7833, [89; 778]);
   (7834, [65; 702]); (7835, [7776]); (7841, [7840]); (7843, [7842]);
   (7845, [7844]); (7847, [7846]); (7849, [7848]); (7851, [7850]);
   (7853, [7852]); (7855, [7854]); (7857, [7856]); (7859, [7858]);
   (7861, [7860]); (7863, [7862]); (7865, [7864]); (7867, [7866]);
   (7869, [7868]); (7871, [7870]); (7873, [7872]); (7875, [7874]);
   (7877, [7876]); (7879, [7878]); (7881, [7880]); (7883, [7882]);
   (7885, [7884]); (7887, [7886]); (7889, [7888]); (7891, [7890]);
   (7893, [7892]); (7895, [7894]); (7897, [7896]); (7899, [7898]);
   (7901, [7900]); (7903, [7902]); (7905, [7904]); (7907, [7906]);
   (7909, [7908]); (7911, [7910]); (7913, [7912]); (7915, [7914]);
   (7917, [7916]); (7919, [7918]); (7921, [7920]); (7923, [7922]);
   (7925, [7924]); (7927, [7926]); (7929, [7928]); (7931, [7930]);
   (7933, [7932]); (7935, [7934]); (7936, [7944]); (7937, [7945]);
   (7938, [7946]); (7939, [7947]); (7940, [7948]); (7941, [7949]);
   (7942, [7950]); (7943, [7951]); (7952, [7960]); (7953, [7961]);
   (7954, [7962]); (7955, [7963]); (7956, [7964]); (7957, [7965]);
   (7968, [7976]); (7969, [7977]); (7970, [7978]); (7971, [7979]);
   (7972, [7980]); (7973, [7981]); (7974, [7982]); (7975, [7983]);
   (7984, [7992]); (7985, [7993]); (7986, [7994]); (7987, [7995]);
   (7988, [7996]); (7989, [7997]); (7990, [7998]); (7991, [7999]);
   (8000, [8008]); (8001, [8009]); (8002, [8010]); (8003, [8011]);
   (8004, [8012]); (8005, [8013]); (8016, [933; 787]); (8017, [8025]);
   (8018, [933; 787; 768]); (8019, [8027]); (8020, [933; 787; 769]);
   (8021, [8029]); (8022, [933; 787; 834]); (8023, [8031]); (8032, [8040]);
   (8033, [8041]); (8034, [8042]); (8035, [8043]); (8036, [8044]);
   (8037, [8045]); (8038, [8046]); (8039, [8047]); (8048, [8122]);
   (8049, [8123]); (8050, [8136]); (8051, [8137]); (8052, [8138]);
   (8053, [8139]); (8054, [8154]); (8055, [8155]); (8056, [8184]);
   (8057, [8185]); (8058, [8170]); (8059, [8171]); (8060, [8186]);
   (8061, [8187]); (8064, [7944; 921]); (8065, [7945; 921]);
   (8066, [7946; 921]); (8067, [7947; 921]); (8068, [7948; 921]);
   (8069, [7949; 921]); (8070, [7950; 921]); (8071, [7951; 921]);
   (8072, [7944; 921]); (8073, [7945; 921]); (8074, [7946; 921]);
   (8075, [7947; 921]); (8076, [7948; 921]); (8077, [7949; 921]);
   (8078, [7950; 921]); (8079, [7951; 921]); (8080, [7976; 921]);
   (8081, [7977; 921]); (8082, [7978; 921]); (8083, [7979; 921]);
   (8084, [7980; 921]); (8085, [7981; 921]); (8086, [7982; 921]);
   (8087, [7983; 921]); (8088, [7976; 921]); (8089, [7977; 921]);
   (8090, [7978; 921]); (8091, [7979; 921]); (8092, [7980; 921]);
   (8093, [7981; 921]); (8094, [7982; 921]); (8095, [7983; 921]);
   (8096, [8040; 921]); (8097, [8041; 921]); (8098, [8042; 921]);
   (8099, [8043; 921]); (8100, [8044; 921]); (8101, [8045; 921]);
   (8102, [8046; 921]); (8103, [8047; 921]); (8104, [8040; 921]);
   (8105, [8041; 921]); (8106, [8042; 921]); (8107, [8043; 921]);
   (8108, [8044; 921]); (8109, [8045; 921]); (8110, [8046; 921]);
   (8111, [8047; 921]); (8112, [8120]); (8113, [8121]); (8114, [8122; 921]);
   (8115, [913; 921]); (8116, [902; 921]); (8118, [913; 834]);
   (8119, [913; 834; 921]); (8124, [913; 921]); (8126, [921]);
   (8130, [8138; 921]); (8131, [919; 921]); (8132, [905; 921]);
   (8134, [919; 834]); (8135, [919; 834; 921]); (8140, [919; 921]);
   (8144, [8152]); (8145, [8153]); (8146, [921; 776; 768]);
   (8147, [921; 776; 769]); (8150, [921; 834]); (8151, [921; 776; 834]);
   (8160, [8168]); (8161, [8169]); (8162, [933; 776; 768]);
   (8163, [933; 776; 769]); (8164, [929; 787]); (8165, [8172]);
   (8166, [933; 834]); (8167, [933; 776; 834]); (8178, [8186; 921]);
   (8179, [937; 921]); (8180, [911; 921]); (8182, [937; 834]);
   (8183, [937; 834; 921]); (8188, [937; 921]); (8526, [8498]); (8560, [8544]);
   (8561, [8545]); (8562, [8546]); (8563, [8547]); (8564, [8548]);
   (8565, [8549]); (8566, [8550]); (8567, [8551]); (8568, [8552]);
   (8569, [8553]); (8570, [8554]); (8571, [8555]); (8572, [8556]);
   (8573, [8557]); (8574, [8558]); (8575, [8559]); (8580, [8579]);
   (9424, [9398]); (9425, [9399]); (9426, [9400]); (9427, [9401]);
   (9428, [9402]); (9429, [9403]); (9430, [9404]); (9431, [9405]);
   (9432, [9406]); (9433, [9407]); (9434, [9408]); (9435, [9409]);
   (9436, [9410]); (9437, [9411]); (9438, [9412]); (9439, [9413]);
   (9440, [9414]); (9441, [9415]); (9442, [9416]); (9443, [9417]);
   (9444, [9418]); (9445, [9419]); (9446, [9420]); (9447, [9421]);
   (9448, [9422]); (9449, [9423]); (11312, [11264]); (11313, [11265]);
   (11314, [11266]); (11315, [11267]); (11316, [11268]); (11317, [11269]);
   (11318, [11270]); (11319, [11271]); (11320, [11272]); (11321, [11273]);
   (11322, [11274]); (11323, [11275]); (11324, [11276]); (11325, [11277]);
   (11326, [11278]); (11327, [11279]); (11328, [11280]); (11329, [11281]);
   (11330, [11282]); (11331, [11283]); (11332, [11284]); (11333, [11285]);
   (11334, [11286]); (11335, [11287]); (11336, [11288]); (11337, [11289]);
   (11338, [11290]); (11339, [11291]); (11340, [11292]); (11341, [11293]);
   (11342, [11294]); (11343, [11295]); (11344, [11296]); (11345, [11297]);
   (11346, [11298]); (11347, [11299]); (11348, [11300]); (11349, [11301]);
   (11350, [11302]); (11351, [11303]); (11352, [11304]); (11353, [11305]);
   (11354, [11306]); (11355, [11307]); (11356, [11308]); (11357, [11309]);
   (11358, [11310]); (11359, [11311]); (11361, [11360]); (11365, [570]);
   (11366, [574]); (11368, [11367]); (11370, [11369]); (11372, [11371]);
   (11379, [11378]); (11382, [11381]); (11393, [11392]); (11395, [11394]);
   (11397, [11396]); (11399, [11398]); (11401, [11400]); (11403, [11402]);
   (11405, [11404]); (11407, [11406]); (11409, [11408]); (11411, [11410]);
   (11413, [11412]); (11415, [11414]); (11417, [11416]); (11419, [11418]);
   (11421, [11420]); (11423, [11422]); (11425, [11424]); (11427, [11426]);
   (11429, [11428]); (11431, [11430]); (11433, [11432]); (11435, [11434]);
   (11437, [11436]); (11439, [11438]); (11441, [11440]); (11443, [11442]);
   (11445, [11444]); (11447, [11446]); (11449, [11448]); (11451, [11450]);
   (11453, [11452]); (11455, [11454]); (11457, [11456]); (11459, [11458]);
   (11461, [11460]); (11463, [11462]); (11465, [11464]); (11467, [11466]);
   (11469, [11468]); (11471, [11470]); (11473, [11472]); (11475, [11474]);
   (11477, [11476]); (11479, [11478]); (11481, [11480]); (11483, [11482]);
   (11485, [11484]); (11487, [11486]); (11489, [11488]); (11491, [11490]);
   (11500, [11499]); (11502, [11501]); (11507, [11506]); (11520, [4256]);
   (11521, [4257]); (11522, [4258]); (11523, [4259]); (11524, [4260]);
   (11525, [4261]); (11526, [4262]); (11527, [4263]); (11528, [4264]);
   (11529, [4265]); (11530, [4266]); (11531, [4267]); (11532, [4268]);
   (11533, [4269]); (11534, [4270]); (11535, [4271]); (11536, [4272]);
   (11537, [4273]); (11538, [4274]); (11539, [4275]); (11540, [4276]);
   (11541, [4277]); (11542, [4278]); (11543, [4279]); (11544, [4280]);
   (11545, [4281]); (11546, [4282]); (11547, [4283]); (11548, [4284]);
   (11549, [4285]); (11550, [4286]); (11551, [4287]); (11552, [4288]);
   (11553, [4289]); (11554, [4290]); (11555, [4291]); (11556, [4292]);
   (11557, [4293]); (11559, [4295]); (11565, [4301]); (42561, [42560]);
   (42563, [42562]); (42565, [42564]); (42567, [42566]); (42569, [42568]);
   (42571, [42570]); (42573, [42572]); (42575, [42574]); (42577, [42576]);
   (42579, [42578]); (42581, [42580]); (42583, [42582]); (42585, [42584]);
   (42587, [42586]); (42589, [42588]); (42591, [42590]); (42593, [42592]);
   (42595, [42594]); (42597, [42596]); (42599, [42598]); (42601, [42600]);
   (42603, [42602]); (42605, [42604]); (42625, [42624]); (42627, [42626]);
   (42629, [42628]); (42631, [42630]); (42633, [42632]); (42635, [42634]);
   (42637, [42636]); (42639, [42638]); (42641, [42640]); (42643, [42642]);
   (42645, [42644]); (42647, [42646]); (42649, [42648]); (42651, [42650]);
   (42787, [42786]); (42789, [42788]); (42791, [42790]); (42793, [42792]);
   (42795, [42794]); (42797, [42796]); (42799, [42798]); (42803, [42802]);
   (42805, [42804]); (42807, [42806]); (42809, [42808]); (42811, [42810]);
   (42813, [42812]); (42815, [42814]); (42817, [42816]); (42819, [42818]);
   (42821, [42820]); (42823, [42822]); (42825, [42824]); (42827, [42826]);
   (42829, [42828]); (42831, [42830]); (42833, [42832]); (42835, [42834]);
   (42837, [42836]); (42839, [42838]); (42841, [42840]); (42843, [42842]);
   (42845, [42844]); (42847, [42846]); (42849, [42848]); (42851, [42850]);
   (42853, [42852]); (42855, [42854]); (42857, [42856]); (42859, [42858]);
   (42861, [42860]); (42863, [42862]); (42874, [42873]); (42876, [42875]);
   (42879, [42878]); (42881, [42880]); (42883, [42882]); (42885, [42884]);
   (42887, [42886]); (42892, [42891]); (42897, [42896]); (42899, [42898]);
   (42900, [42948]); (42903, [42902]); (42905, [42904]); (42907, [42906]);
   (42909, [42908]); (42911, [42910]); (42913, [42912]); (42915, [42914]);
   (42917, [42916]); (42919, [42918]); (42921, [42920]); (42933, [42932]);
   (42935, [42934]); (42937, [42936]); (42939, [42938]); (42941, [42940]);
   (42943, [42942]); (42945, [42944]); (42947, [42946]); (42952, [42951]);
   (42954, [42953]); (42961, [42960]); (42967, [42966]); (42969, [42968]);
   (42998, [42997]); (43859, [42931]); (43888, [5024]); (43889, [5025]);
   (43890, [5026]); (43891, [5027]); (43892, [5028]); (43893, [5029]);
   (43894, [5030]); (43895, [5031]); (43896, [5032]); (43897, [5033]);
   (43898, [5034]); (43899, [5035]); (43900, [5036]); (43901, [5037]);
   (43902, [5038]); (43903, [5039]); (43904, [5040]); (43905, [5041]);
   (43906, [5042]); (43907, [5043]); (43908, [5044]); (43909, [5045]);
   (43910, [5046]); (43911, [5047]); (43912, [5048]); (43913, [5049]);
   (43914, [5050]); (43915, [5051]); (43916, [5052]); (43917, [5053]);
   (43918, [5054]); (43919, [5055]); (43920, [5056]); (43921, [5057]);
   (43922, [5058]); (43923, [5059]); (43924, [5060]); (43925, [5061]);
   (43926, [5062]); (43927, [5063]); (43928, [5064]); (43929, [5065]);
   (43930, [5066]); (43931, [5067]); (43932, [5068]); (43933, [5069]);
   (43934, [5070]); (43935, [5071]); (43936, [5072]); (43937, [5073]);
   (43938, [5074]); (43939, [5075]); (43940, [5076]); (43941, [5077]);
   (43942, [5078]); (43943, [5079]); (43944, [5080]); (43945, [5081]);
   (43946, [5082]); (43947, [5083]); (43948, [5084]); (43949, [5085]);
   (43950, [5086]); (43951, [5087]); (43952, [5088]); (43953, [5089]);
   (43954, [5090]); (43955, [5091]); (43956, [5092]); (43957, [5093]);
   (43958, [5094]); (43959, [5095]); (43960, [5096]); (43961, [5097]);
   (43962, [5098]); (43963, [5099]); (43964, [5100]); (43965, [5101]);
   (43966, [5102]); (43967, [5103]); (64256, [70; 70]); (64257, [70; 73]);
   (64258, [70; 76]); (64259, [70; 70; 73]); (64260, [70; 70; 76]);
   (64261, [83; 84]); (64262, [83; 84]); (64275, [1348; 1350]);
   (64276, [1348; 1333]); (64277, [1348; 1339]); (64278, [1358; 1350]);
   (64279, [1348; 1341]); (65345, [65313]); (65346, [65314]); (65347, [65315]);
   (65348, [65316]); (65349, [65317]); (65350, [65318]); (65351, [65319]);
   (65352, [65320]); (65353, [65321]); (65354, [65322]); (65355, [65323]);
   (65356, [65324]); (65357, [65325]); (65358, [65326]); (65359, [65327]);
   (65360, [65328]); (65361, [65329]); (65362, [65330]); (65363, [65331]);
   (65364, [65332]); (65365, [65333]); (65366, [65334]); (65367, [65335]);
   (65368, [65336]); (65369, [65337]); (65370, [65338]); (66600, [66560]);
   (66601, [66561]); (66602, [66562]); (66603, [66563]); (66604, [66564]);
   (66605, [66565]); (66606, [66566]); (66607, [66567]); (66608, [66568]);
   (66609, [66569]); (66610, [66570]); (66611, [66571]); (66612, [66572]);
   (66613, [66573]); (66614, [66574]); (66615, [66575]); (66616, [66576]);
   (66617, [66577]); (66618, [66578]); (66619, [66579]); (66620, [66580]);
   (66621, [66581]); (66622, [66582]); (66623, [66583]); (66624, [66584]);
   (66625, [66585]); (66626, [66586]); (66627, [66587]); (66628, [66588]);
   (66629, [66589]); (66630, [66590]); (66631, [66591]); (66632, [66592]);
   (66633, [66593]); (66634, [66594]); (66635, [66595]); (66636, [66596]);
   (66637, [66597]); (66638, [66598]); (66639, [66599]); (66776, [66736]);
   (66777, [66737]); (66778, [66738]); (66779, [66739]); (66780, [66740]);
   (66781, [66741]); (66782, [66742]); (66783, [66743]); (66784, [66744]);
   (66785, [66745]); (66786, [66746]); (66787, [66747]); (66788, [66748]);
   (66789, [66749]); (66790, [66750]); (66791, [66751]); (66792, [66752]);
   (66793, [66753]); (66794, [66754]); (66795, [66755]); (66796, [66756]);
   (66797, [66757]); (66798, [66758]); (66799, [66759]); (66800, [66760]);
   (66801, [66761]); (66802, [66762]); (66803, [66763]); (66804, [66764]);
   (66805, [66765]); (66806, [66766]); (66807, [66767]); (66808, [66768]);
   (66809, [66769]); (66810, [66770]); (66811, [66771]); (66967, [66928]);
   (66968, [66929]); (66969, [66930]); (66970, [66931]); (66971, [66932]);
   (66972, [66933]); (66973, [66934]); (66974, [66935]); (66975, [66936]);
   (66976, [66937]); (66977, [66938]); (66979, [66940]); (66980, [66941]);
   (66981, [66942]); (66982, [66943]); (66983, [66944]); (66984, [66945]);
   (66985, [66946]); (66986, [66947]); (66987, [66948]); (66988, [66949]);
   (66989, [66950]); (66990, [66951]); (66991, [66952]); (66992, [66953]);
   (66993, [66954]); (66995, [66956]); (66996, [66957]); (66997, [66958]);
   (66998, [66959]); (66999, [66960]); (67000, [66961]); (67001, [66962]);
   (67003, [66964]); (67004, [66965]); (68800, [68736]); (68801, [68737]);
   (68802, [68738]); (68803, [68739]); (68804, [68740]); (68805, [68741]);
   (68806, [68742]); (68807, [68743]); (68808, [68744]); (68809, [68745]);
   (68810, [68746]); (68811, [68747]); (68812, [68748]); (68813, [68749]);
   (68814, [68750]); (68815, [68751]); (68816, [68752]); (68817, [68753]);
   (68818, [68754]); (68819, [68755]); (68820, [68756]); (68821, [68757]);
   (68822, [68758]); (68823, [68759]); (68824, [68760]); (68825, [68761]);
   (68826, [68762]); (68827, [68763]); (68828, [68764]); (68829, [68765]);
   (68830, [68766]); (68831, [68767]); (68832, [68768]); (68833, [68769]);
   (68834, [68770]); (68835, [68771]); (68836, [68772]); (68837, [68773]);
   (68838, [68774]); (68839, [68775]); (68840, [68776]); (68841, [68777]);
   (68842, [68778]); (68843, [68779]); (68844, [68780]); (68845, [68781]);
   (68846, [68782]); (68847, [68783]); (68848, [68784]); (68849, [68785]);
   (68850, [68786]); (71872, [71840]); (71873, [71841]); (71874, [71842]);
   (71875, [71843]); (71876, [71844]); (71877, [71845]); (71878, [71846]);
   (71879, [71847]); (71880, [71848]); (71881, [71849]); (71882, [71850]);
   (71883, [71851]); (71884, [71852]); (71885, [71853]); (71886, [71854]);
   (71887, [71855]); (71888, [71856]); (71889, [71857]); (71890, [71858]);
   (71891, [71859]); (71892, [71860]); (71893, [71861]); (71894, [71862]);
   (71895, [71863]); (71896, [71864]); (71897, [71865]); (71898, [71866]);
   (71899, [71867]); (71900, [71868]); (71901, [71869]); (71902, [71870]);
   (71903, [71871]); (93792, [93760]); (93793, [93761]); (93794, [93762]);
   (93795, [93763]); (93796, [93764]); (93797, [93765]); (93798, [93766]);
   (93799, [93767]); (93800, [93768]); (93801, [93769]); (93802, [93770]);
   (93803, [93771]); (93804, [93772]); (93805, [93773]); (93806, [93774]);
   (93807, [93775]); (93808, [93776]); (93809, [93777]); (93810, [93778]);
   (93811, [93779]); (93812, [93780]); (93813, [93781]); (93814, [93782]);
   (93815, [93783]); (93816, [93784]); (93817, [93785]); (93818, [93786]);
   (93819, [93787]); (93820, [93788]); (93821, [93789]); (93822, [93790]);
   (93823, [93791]); (125218, [125184]); (125219, [125185]);
   (125220, [125186]); (125221, [125187]); (125222, [125188]);
   (125223, [125189]); (125224, [125190]); (125225, [125191]);
   (125226, [125192]); (125227, [125193]); (125228, [125194]);
   (125229, [125195]); (125230, [125196]); (125231, [125197]);
   (125232, [125198]); (125233, [125199]); (125234, [125200]);
   (125235, [125201]); (125236, [125202]); (125237, [125203]);
   (125238, [125204]); (125239, [125205]); (125240, [125206]);
   (125241, [125207]); (125242, [125208]); (125243, [125209]);
   (125244, [125210]); (125245, [125211]); (125246, [125212]);
   (125247, [125213]); (125248, [125214]); (125249, [125215]);
   (125250, [125216]); (125251, [125217])]%N.

Fixpoint table_lookup (c : N) (t : list (N * text)) : option text :=
  match t with
  | [] => None
  | (c', u) :: rest => if (c =? c')%N then Some u else table_lookup c rest
  end.

Definition upper_char (c : N) : text :=
  match table_lookup c upper_table with
  | Some u => u
  | None => [c]
  end.

(** [s.upper()]. *)
Definition upper (s : text) : text := flat_map upper_char s.

(** [s.lstrip()]. *)
Fixpoint lstrip (s : text) : text :=
  match s with
  | [] => []
  | c :: r => if is_space c then lstrip r else s
  end.

(** [s.rstrip()]. *)
Fixpoint rstrip (s : text) : text :=
  match s with
  | [] => []
  | c :: r =>
      match rstrip r with
      | [] => if is_space c then [] else [c]
      | r' => c :: r'
      end
  end.

(** [s.strip()]: drop the leading run of white space, then the trailing one. *)
Definition strip (s : text) : text := rstrip (lstrip s).

Definition all_space (s : text) : bool := forallb is_space s.

(** [x.strip()] as a method call: only [str] has the attribute. *)
Definition method_strip (v : pyval) : result text :=
  match v with
  | PyStr s => Ok (strip s)
  | _ => Raise (AttributeError "strip")
  end.

(** ** The [data_dirs] tables *)

(** A dict literal keeps its insertion order ([cref_uv850_compare]
    enumerates it), so it is an association list; keys and paths are
    literals. *)
Definition dict : Type := list (string * list string).

(** The entry written under the literal [k]. *)
Fixpoint assoc (k : string) (d : dict) : option (list string) :=
  match d with
  | [] => None
  | (k', v) :: rest => if String.eqb k k' then Some v else assoc k rest
  end.

(** The entry whose key equals the [str] [k]. *)
Fixpoint lookup (k : text) (d : dict) : option (list string) :=
  match d with
  | [] => None
  | (k', v) :: rest => if text_eqb k (txt k') then Some v else lookup k rest
  end.

Definition keys (d : dict) : list string := map fst d.

(** [d[k]]. *)
Definition dict_getitem (d : dict) (k : text) : result (list string) :=
  match lookup k d with
  | Some v => Ok v
  | None => Raise (KeyError k)
  end.

(** [l[i]] for a list, negative indices counting from the end. *)
Definition list_getitem {A : Type} (l : list A) (i : Z) : result A :=
  let n := Z.of_nat (List.length l) in
  let j := (if i <? 0 then i + n else i)%Z in
  if ((0 <=? j) && (j <? n))%Z then
    match nth_error l (Z.to_nat j) with
    | Some a => Ok a
    | None => Raise IndexError
    end
  else Raise IndexError.

Module Mesoscale.

(** [data_dirs] of [cref_uv850] (and, literally the same,
    of [cref_uv850_compare]). *)
Definition data_dirs : dict :=
  [ ("SHANGHAI", ["SHANGHAI_HR/COMPOSITE_REFLECTIVITY/ENTIRE_ATMOSPHERE";
                  "SHANGHAI_HR/UGRD/850"; "SHANGHAI_HR/VGRD/850"]);
    ("BEIJING", ["BEIJING_MR/COMPOSITE_REFLECTIVITY/ENTIRE_ATMOSPHERE";
                 "BEIJING_MR/UGRD/850"; "BEIJING_MR/VGRD/850"]);
    ("GRAPES_MESO", ["GRAPES_MESO_HR/RADAR_COMBINATION_REFLECTIVITY";
                     "GRAPES_MESO_HR/UGRD/850"; "GRAPES_MESO_HR/VGRD/850"]);
    ("GRAPES_3KM", ["GRAPES_3KM/RADAR_COMBINATION_REFLECTIVITY";
                    "GRAPES_3KM/UGRD/850"; "GRAPES_3KM/VGRD/850"]) ].

Definition unknown_model : string :=
  "Unknown model, choose ShangHai, BeiJing, Grapes_meso of Grapes_3km.".

(** The [try ... except KeyError] that opens [cref_uv850]. *)
Definition cref_uv850_data_dir (model : pyval) : result (list string) :=
  try_except_KeyError
    (s <- method_strip model ;; dict_getitem data_dirs (upper s))
    (Raise (ValueError unknown_model)).

(** The positions [cref_uv850] reads: [data_dir[0]], and with
    [draw_wind] also [data_dir[1]] and [data_dir[2]]. *)
Definition indexed (draw_wind : bool) : list Z :=
  if draw_wind then [0; 1; 2]%Z else [0]%Z.

End Mesoscale.

Module Synoptic.

Definition data_dirs : dict :=
  [ ("ECMWF", ["ECMWF_LR/HGT/500"; "ECMWF_LR/UGRD/850";
               "ECMWF_LR/VGRD/850"; "ECMWF_LR/PRMSL"]);
    ("GRAPES", ["GRAPES_GFS/HGT/500"; "GRAPES_GFS/UGRD/850";
                "GRAPES_GFS/VGRD/850"; "GRAPES_GFS/PRMSL"]);
    ("NCEP", ["NCEP_GFS/HGT/500"; "NCEP_GFS/UGRD/850";
              "NCEP_GFS/VGRD/850"; "NCEP_GFS/PRMSL"]) ].

Definition unknown_model : string :=
  "Unknown model, choose ECMWF, GRAPES or NCEP.".

Definition gh500_uv850_mslp_data_dir (model : pyval) : result (list string) :=
  try_except_KeyError
    (s <- method_strip model ;; dict_getitem data_dirs (upper s))
    (Raise (ValueError unknown_model)).

Definition indexed : list Z := [0; 1; 2; 3]%Z.

End Synoptic.

Module Qpf.

Definition data_dirs : dict := [ ("ECMWF", ["ECMWF_HR/RAIN24"]) ].

Definition unknown_model : string :=
  "Unknown model, choose ECMWF, GRAPES or NCEP.".

Definition qpf_24h_data_dir (model : pyval) : result (list string) :=
  try_except_KeyError
    (s <- method_strip model ;; dict_getitem data_dirs (upper s))
    (Raise (ValueError unknown_model)).

Definition indexed : list Z := [0]%Z.

End Qpf.

(** The three lookups under one name, by the kind of plot. *)
Inductive analysis_type : Type :=
| CompositeReflectivityAndWind
| Precipitation24h
| Synoptic500hPa.

Definition table (a : analysis_type) : dict :=
  match a with
  | CompositeReflectivityAndWind => Mesoscale.data_dirs
  | Precipitation24h => Qpf.data_dirs
  | Synoptic500hPa => Synoptic.data_dirs
  end.

Definition unknown_model (a : analysis_type) : string :=
  match a with
  | CompositeReflectivityAndWind => Mesoscale.unknown_model
  | Precipitation24h => Qpf.unknown_model
  | Synoptic500hPa => Synoptic.unknown_model
  end.

Definition resolve_field_paths (model : pyval) (a : analysis_type)
  : result (list string) :=
  match a with
  | CompositeReflectivityAndWind => Mesoscale.cref_uv850_data_dir model
  | Precipitation24h => Qpf.qpf_24h_data_dir model
  | Synoptic500hPa => Synoptic.gh500_uv850_mslp_data_dir model
  end.

(** The positions each call site reads from the resolved list. *)
Definition indexed_positions (a : analysis_type) : list Z :=
  match a with
  | CompositeReflectivityAndWind => Mesoscale.indexed true
  | Precipitation24h => Qpf.indexed
  | Synoptic500hPa => Synoptic.indexed
  end.

(** ** Decimal formatting: [format(n, "03d")] and [strftime] *)

Definition digit_char (d : N) : ascii := ascii_of_N (48 + d).

(** Decimal digits of [n], most significant first, pushed in front of
    [acc]; [fuel] bounds the number of digits. *)
Fixpoint dec_loop (fuel : nat) (n : N) (acc : string) : string :=
  match fuel with
  | O => acc
  | S f =>
      let acc' := String (digit_char (n mod 10)) acc in
      if (n <? 10)%N then acc' else dec_loop f (n / 10) acc'
  end.

(** The decimal digits of [n]; a number has no more decimal than binary
    digits. *)
Definition decimal (n : N) : string := dec_loop (S (N.size_nat n)) n "".

Fixpoint zeros (k : nat) : string :=
  match k with
  | O => ""
  | S k' => String "0" (zeros k')
  end.

(** Left padding with ['0'] up to width [w]; longer text is kept whole. *)
Definition zfill (w : nat) (s : string) : string :=
  zeros (w - String.length s) ++ s.

(** What the format code [03d] lays out: sign, then zeros, then the
    digits, at least three characters in all. *)
Definition pad_03d (z : Z) : string :=
  if (z <? 0)%Z
  then String "-" (zfill 2 (decimal (Z.abs_N z)))
  else zfill 3 (decimal (Z.to_N z)).

(** The interpreter refuses to turn an integer into decimal text when it
    has more digits than [sys.get_int_max_str_digits()], unless that limit
    is 0; [sys.set_int_max_str_digits] takes 0 or a limit of 640 at least,
    and 4300 is the limit an interpreter starts with. *)
Definition valid_limit (max_str_digits : N) : bool :=
  ((max_str_digits =? 0) || (640 <=? max_str_digits))%N.

Definition default_max_str_digits : N := 4300.

Definition too_long (max_str_digits : N) (z : Z) : bool :=
  (0 <? max_str_digits)%N && (10 ^ Z.of_N max_str_digits <=? Z.abs z)%Z.

Definition limit_message (max_str_digits : N) : string :=
  "Exceeds the limit (" ++ decimal max_str_digits
    ++ " digits) for integer string conversion; "
    ++ "use sys.set_int_max_str_digits() to increase the limit".

(** [format(z, "03d")]. *)
Definition format_03d (max_str_digits : N) (z : Z) : result string :=
  if too_long max_str_digits z
  then Raise (ValueError (limit_message max_str_digits))
  else Ok (pad_03d z).

(** [".{:03d}".format(fhour)]: [int] takes the format code [d], [str]
    refuses it, [None] refuses any format string, and a [datetime] hands
    the format string to its own [strftime], where ["03d"] has no directive. *)
Definition format_fhour (max_str_digits : N) (fhour : pyval) : result string :=
  match fhour with
  | PyInt z => digits <- format_03d max_str_digits z ;; Ok ("." ++ digits)
  | PyStr _ => Raise (ValueError "Unknown format code 'd' for object of type 'str'")
  | PyNone => Raise (TypeError "unsupported format string passed to NoneType.__format__")
  | PyDatetime _ => Ok ".03d"
  end.

Definition two_digits (n : N) : string := zfill 2 (decimal n).

(** [d.strftime('%y%m%d%H')]. *)
Definition strftime_ymdH (d : datetime) : string :=
  two_digits (year d mod 100) ++ two_digits (month d)
    ++ two_digits (day d) ++ two_digits (hour d).

(** [utility.model_filename]. *)
Definition model_filename (max_str_digits : N) (initial_time fhour : pyval)
  : result text :=
  match initial_time with
  | PyDatetime d =>
      suffix <- format_fhour max_str_digits fhour ;;
      Ok (txt (strftime_ymdH d) +++ txt suffix)
  | other =>
      s <- method_strip other ;;
      suffix <- format_fhour max_str_digits fhour ;;
      Ok (s +++ txt suffix)
  end.

(** ** Vocabulary of the statements *)

(** What the [datetime] constructor accepts. *)
Definition is_leap (y : N) : bool :=
  ((y mod 4 =? 0) && (negb (y mod 100 =? 0) || (y mod 400 =? 0)))%N.

Definition days_in_month (y m : N) : N :=
  (if m =? 2 then (if is_leap y then 29 else 28)
   else if (m =? 4) || (m =? 6) || (m =? 9) || (m =? 11) then 30
   else 31)%N.

Definition valid_datetime (d : datetime) : bool :=
  ((1 <=? year d) && (year d <=? 9999)
   && (1 <=? month d) && (month d <=? 12)
   && (1 <=? day d) && (day d <=? days_in_month (year d) (month d))
   && (hour d <? 24) && (minute d <? 60) && (second d <? 60)
   && (microsecond d <? 1000000))%N.

Definition is_digit (c : ascii) : bool :=
  let n := nat_of_ascii c in ((48 <=? n) && (n <=? 57))%nat.

Definition digit_val (c : ascii) : N := (N_of_ascii c - 48)%N.

(** Reading a run of decimal digits; anything else is refused. *)
Fixpoint read_digits (s : string) (acc : N) : option N :=
  match s with
  | EmptyString => Some acc
  | String c r =>
      if is_digit c then read_digits r (10 * acc + digit_val c) else None
  end.

Definition parse_decimal (s : string) : option N :=
  match s with
  | EmptyString => None
  | _ => read_digits s 0
  end.

Definition leading_zero (s : string) : bool :=
  match s with
  | String c _ => Ascii.eqb c "0"
  | EmptyString => false
  end.

(** [s] is [n] in decimal, filled with zeros up to [w] characters and not
    beyond. *)
Definition zero_padded (w : nat) (n : N) (s : string) : Prop :=
  parse_decimal s = Some n
  /\ w <= String.length s
  /\ (w < String.length s -> leading_zero s = false).

Fixpoint all_digits (s : string) : bool :=
  match s with
  | EmptyString => true
  | String c r => is_digit c && all_digits r
  end.

(** Two characters that are the same letter in either case: the same
    character, or one the upper-case form of the other. *)
Definition same_letter (c d : N) : bool :=
  (c =? d)%N || text_eqb (upper_char c) [d] || text_eqb (upper_char d) [c].

Fixpoint case_equal (s t : text) : bool :=
  match s, t with
  | [], [] => true
  | c :: s', d :: t' => same_letter c d && case_equal s' t'
  | _, _ => false
  end.

(** Two spellings of a model name that differ only in letter case and in
    the white space around the name. *)
Definition same_spelling (a b : text) : Prop :=
  exists la ca ra lb cb rb,
    a = la +++ ca +++ ra /\ b = lb +++ cb +++ rb
    /\ all_space la = true /\ all_space ra = true
    /\ all_space lb = true /\ all_space rb = true
    /\ case_equal ca cb = true.

(** [s] neither starts nor ends with white space. *)
Fixpoint last_is_space (s : text) : bool :=
  match s with
  | [] => false
  | [c] => is_space c
  | _ :: r => last_is_space r
  end.

Definition first_is_space (s : text) : bool :=
  match s with
  | c :: _ => is_space c
  | [] => false
  end.

(** An entry of the case table is sound when what it gives is not empty,
    neither takes nor gives white space, and is left alone by [upper]. *)
Definition upper_entry_ok (e : N * text) : bool :=
  negb (is_space (fst e))
  && match snd e with [] => false | _ => true end
  && forallb (fun x => negb (is_space x)) (snd e)
  && text_eqb (upper (snd e)) (snd e).

(** [needle in hay]. *)
Fixpoint occurs (needle hay : string) : bool :=
  String.prefix needle hay
  || match hay with
     | EmptyString => false
     | String _ r => occurs needle r
     end.

(** The text of a path before its first ['/']. *)
Fixpoint root_segment (p : string) : string :=
  match p with
  | EmptyString => EmptyString
  | String c r => if Ascii.eqb c "/" then EmptyString else String c (root_segment r)
  end.

(** Every path of an entry lies under [root/]. *)
Definition under_root (root : string) (paths : list string) : bool :=
  forallb (fun p => String.prefix (root ++ "/") p) paths.

(** The root of an entry: that of its first path. *)
Definition entry_root (paths : list string) : string :=
  root_segment (hd "" paths).

(** An entry keeps to one root: a single directory name, which starts with
    the model's key. *)
Definition one_root (kv : string * list string) : bool :=
  let root := entry_root (snd kv) in
  negb (String.eqb root "")
  && negb (occurs "/" root)
  && String.prefix (fst kv) root
  && under_root root (snd kv).

(** No path of [kv] lies under the root of another entry of [d]. *)
Definition roots_apart (d : dict) (kv : string * list string) : bool :=
  forallb (fun kv' =>
             String.eqb (fst kv) (fst kv')
             || forallb (fun p => negb (String.prefix (entry_root (snd kv') ++ "/") p))
                        (snd kv))
          d.

(** The positions of [positions] that [l[i]] can read. *)
Definition readable {A : Type} (l : list A) (positions : list Z) : bool :=
  forallb (fun i => match list_getitem l i with Ok _ => true | Raise _ => false end)
          positions.

Definition is_time (v : pyval) : bool :=
  match v with
  | PyStr _ | PyDatetime _ => true
  | _ => false
  end.


(** [c in s] for one character. *)
Definition has_char (c : N) (s : text) : bool := existsb (N.eqb c) s.

(** The fields of a [datetime] that ['%y%m%d%H'] prints. *)
Definition name_fields (d : datetime) : N * N * N * N :=
  ((year d mod 100)%N, month d, day d, hour d).

(** ** The plotting routines, up to the drawing

    Each routine resolves its directories, builds the file name, asks the
    MICAPS client for one grid after the other and gives up at the first
    [None]; only then does it draw.  The client and the drawing are other
    packages: the client is a parameter here, answering with a grid or with
    [None], a grid it returns carries the coordinates the routines read, and
    what a routine does to the outside is the list of [event]s it leaves. *)

(** [enumerate(l)]. *)
Fixpoint enumerate_from {A : Type} (i : Z) (l : list A) : list (Z * A) :=
  match l with
  | [] => []
  | a :: r => (i, a) :: enumerate_from (i + 1)%Z r
  end.

Definition enumerate {A : Type} (l : list A) : list (Z * A) := enumerate_from 0%Z l.

Section Routines.

Variable grid : Type.

(** [get_model_grid(directory, filename=filename)]. *)
Variable get_model_grid : string -> text -> option grid.

(** [sys.get_int_max_str_digits()]. *)
Variable max_str_digits : N.

Inductive event : Type :=
| Retrieve (directory : string) (filename : text)
| Print (message : text)
| Draw (heading : string) (fields : list grid)
| Panel (index : Z) (key : string) (fields : list grid)
| Show.

(** A run: what was done so far, and a value or the exception raised. *)
Definition io (A : Type) : Type := (list event * result A)%type.

Definition io_ret {A : Type} (a : A) : io A := ([], Ok a).

Definition io_bind {A B : Type} (m : io A) (k : A -> io B) : io B :=
  match m with
  | (t, Ok a) => let (t', r) := k a in ((t ++ t')%list, r)
  | (t, Raise e) => (t, Raise e)
  end.

Definition lift {A : Type} (r : result A) : io A := ([], r).

Definition emit (e : event) : io unit := ([e], Ok tt).

Notation "x <~ m ;; k" := (io_bind m (fun x => k))
  (at level 61, m at next level, right associativity).

(** [get_model_grid(data_dir[i], filename=filename)]. *)
Definition fetch (data_dir : list string) (i : Z) (filename : text)
  : io (option grid) :=
  directory <~ lift (list_getitem data_dir i) ;;
  ([Retrieve directory filename], Ok (get_model_grid directory filename)).

(** [synoptic.gh500_uv850_mslp]. *)
Definition gh500_uv850_mslp (initial_time fhour model : pyval) : io unit :=
  data_dir <~ lift (Synoptic.gh500_uv850_mslp_data_dir model) ;;
  filename <~ lift (model_filename max_str_digits initial_time fhour) ;;
  gh500 <~ fetch data_dir 0 filename ;;
  match gh500 with
  | None => io_ret tt
  | Some gh500 =>
      u850 <~ fetch data_dir 1 filename ;;
      match u850 with
      | None => io_ret tt
      | Some u850 =>
          v850 <~ fetch data_dir 2 filename ;;
          match v850 with
          | None => io_ret tt
          | Some v850 =>
              mslp <~ fetch data_dir 3 filename ;;
              match mslp with
              | None => io_ret tt
              | Some mslp =>
                  _ <~ emit (Draw "500-hPa Heights (m), 850-hPa Winds, MSLP (hPa)"
                                  [gh500; u850; v850; mslp]) ;;
                  emit Show
              end
          end
      end
  end.

(** [mesoscale.cref_uv850]. *)
Definition cref_uv850 (initial_time fhour model : pyval) (draw_wind : bool)
  : io unit :=
  data_dir <~ lift (Mesoscale.cref_uv850_data_dir model) ;;
  filename <~ lift (model_filename max_str_digits initial_time fhour) ;;
  cref <~ fetch data_dir 0 filename ;;
  match cref with
  | None => io_ret tt
  | Some cref =>
      if draw_wind then
        u850 <~ fetch data_dir 1 filename ;;
        match u850 with
        | None => io_ret tt
        | Some u850 =>
            v850 <~ fetch data_dir 2 filename ;;
            match v850 with
            | None => io_ret tt
            | Some v850 =>
                _ <~ emit (Draw "CREF (dBz), 850-hPa Winds" [cref; u850; v850]) ;;
                emit Show
            end
        end
      else
        _ <~ emit (Draw "CREF (dBz), 850-hPa Winds" [cref]) ;;
        emit Show
  end.

(** [qpf.qpf_24h]. *)
Definition qpf_24h (initial_time fhour model : pyval) : io unit :=
  data_dir <~ lift (Qpf.qpf_24h_data_dir model) ;;
  filename <~ lift (model_filename max_str_digits initial_time fhour) ;;
  rain24 <~ fetch data_dir 0 filename ;;
  match rain24 with
  | None =>
      emit (Print (txt "Can not retrieve " +++ filename +++ txt " from Micaps server."))
  | Some rain24 =>
      _ <~ emit (Draw "24h accumulated QPF" [rain24]) ;;
      emit Show
  end.

(** [grid[index]] of the [AxesGrid] built with [nrows_ncols=(2, 2)]. *)
Definition axes_getitem (index : Z) : result Z :=
  list_getitem (map Z.of_nat (seq 0 (2 * 2))) index.

(** The loop of [cref_uv850_compare] over [enumerate(data_dirs)]; [true]
    when it ran to its end, [false] when a missing grid made the routine
    return. *)
Fixpoint compare_panels (filename : text) (draw_wind : bool)
  (items : list (Z * string)) : io bool :=
  match items with
  | [] => io_ret true
  | (index, key) :: rest =>
      ax <~ lift (axes_getitem index) ;;
      data_dir <~ lift (dict_getitem Mesoscale.data_dirs (txt key)) ;;
      cref <~ fetch data_dir 0 filename ;;
      match cref with
      | None => io_ret false
      | Some cref =>
          if draw_wind then
            u850 <~ fetch data_dir 1 filename ;;
            match u850 with
            | None => io_ret false
            | Some u850 =>
                v850 <~ fetch data_dir 2 filename ;;
                match v850 with
                | None => io_ret false
                | Some v850 =>
                    _ <~ emit (Panel ax key [cref; u850; v850]) ;;
                    compare_panels filename draw_wind rest
                end
            end
          else
            _ <~ emit (Panel ax key [cref]) ;;
            compare_panels filename draw_wind rest
      end
  end.

(** [mesoscale.cref_uv850_compare]. *)
Definition cref_uv850_compare (initial_time fhour : pyval) (draw_wind : bool)
  : io unit :=
  filename <~ lift (model_filename max_str_digits initial_time fhour) ;;
  finished <~ compare_panels filename draw_wind
                (enumerate (keys Mesoscale.data_dirs)) ;;
  if finished : bool then emit Show else io_ret tt.

(** The requests of a run, in order. *)
Fixpoint retrievals (t : list event) : list (string * text) :=
  match t with
  | [] => []
  | Retrieve directory filename :: r => (directory, filename) :: retrievals r
  | _ :: r => retrievals r
  end.

Definition is_show (e : event) : bool :=
  match e with
  | Show => true
  | _ => false
  end.

Definition is_drawing (e : event) : bool :=
  match e with
  | Draw _ _ | Panel _ _ _ => true
  | _ => false
  end.

(** The keys of the panels of a run, with their positions. *)
Fixpoint panels (t : list event) : list (Z * string) :=
  match t with
  | [] => []
  | Panel index key _ :: r => (index, key) :: panels r
  | _ :: r => panels r
  end.

Definition found (filename : text) (directory : string) : bool :=
  match get_model_grid directory filename with
  | Some _ => true
  | None => false
  end.

(** The directories asked for when [dirs] are wanted in this order and the
    asking stops at the first that is missing. *)
Fixpoint upto_first_miss (filename : text) (dirs : list string) : list string :=
  match dirs with
  | [] => []
  | d :: r => d :: (if found filename d then upto_first_miss filename r else [])
  end.

End Routines.

Arguments Retrieve {grid} directory filename.
Arguments Print {grid} message.
Arguments Draw {grid} heading fields.
Arguments Panel {grid} index key fields.
Arguments Show {grid}.
Arguments gh500_uv850_mslp {grid} get_model_grid max_str_digits initial_time fhour model.
Arguments cref_uv850 {grid} get_model_grid max_str_digits initial_time fhour model draw_wind.
Arguments qpf_24h {grid} get_model_grid max_str_digits initial_time fhour model.
Arguments cref_uv850_compare {grid} get_model_grid max_str_digits initial_time fhour draw_wind.
Arguments compare_panels {grid} get_model_grid filename draw_wind items.
Arguments retrievals {grid} t.
Arguments panels {grid} t.
Arguments is_show {grid} e.
Arguments is_drawing {grid} e.
Arguments found {grid} get_model_grid filename directory.
Arguments upto_first_miss {grid} get_model_grid filename dirs.

(** The directories a mesoscale run wants of an entry. *)
Definition wanted (draw_wind : bool) (paths : list string) : list string :=
  if draw_wind then paths else firstn 1 paths.

(** ** Text lemmas *)

Lemma text_eqb_spec (s t : text) : reflect (s = t) (text_eqb s t).
Proof.
  revert t. induction s as [| c s IH]; intros [| d t]; simpl;
    try (constructor; congruence).
  destruct (N.eqb_spec c d) as [-> | Hn]; simpl.
  - destruct (IH t) as [-> | Hn]; constructor; congruence.
  - constructor. congruence.
Qed.

Lemma text_eqb_refl (s : text) : text_eqb s s = true.
Proof.
  now destruct (text_eqb_spec s s).
Qed.


Lemma N_of_ascii_injective (c d : ascii) : N_of_ascii c = N_of_ascii d -> c = d.
Proof.
  intros H. rewrite <- (ascii_N_embedding c), <- (ascii_N_embedding d). now rewrite H.
Qed.

Lemma txt_injective (a b : string) : txt a = txt b -> a = b.
Proof.
  unfold txt. revert b. induction a as [| c a IH]; intros [| d b]; simpl;
    try discriminate; [reflexivity |].
  intros [= Hc Hr]. apply N_of_ascii_injective in Hc. subst. now rewrite (IH b Hr).
Qed.

Lemma length_txt (s : string) : List.length (txt s) = String.length s.
Proof.
  unfold txt. induction s as [| c s IH]; simpl; [reflexivity | now rewrite IH].
Qed.

Lemma append_assoc (a b c : string) : (a ++ b) ++ c = a ++ (b ++ c).
Proof.
  induction a as [| x a IH]; simpl; [reflexivity | now rewrite IH].
Qed.

Lemma append_empty_r (s : string) : s ++ "" = s.
Proof.
  induction s as [| x s IH]; simpl; [reflexivity | now rewrite IH].
Qed.

Lemma length_append (a b : string) :
  String.length (a ++ b) = String.length a + String.length b.
Proof.
  induction a as [| x a IH]; simpl; [reflexivity | now rewrite IH].
Qed.








(** What [lstrip] and [rstrip] cut off is white space, and what they keep
    does not start (end) with white space. *)
Lemma lstrip_spec (s : text) :
  exists l, s = l +++ lstrip s /\ all_space l = true
            /\ first_is_space (lstrip s) = false.
Proof.
  induction s as [| c s (l & E & Hl & Hf)]; simpl.
  - exists []. now repeat split.
  - destruct (is_space c) eqn:Hc.
    + exists (c :: l). simpl. rewrite Hc, Hl, <- E. now repeat split.
    + exists []. simpl. now repeat split.
Qed.

Lemma rstrip_spec (s : text) :
  exists r, s = rstrip s +++ r /\ all_space r = true
            /\ last_is_space (rstrip s) = false.
Proof.
  induction s as [| c s (r & E & Hr & Hf)]; simpl.
  - exists []. now repeat split.
  - destruct (rstrip s) as [| d t] eqn:Hs.
    + destruct (is_space c) eqn:Hc.
      * exists (c :: r). simpl in E. subst r. simpl. rewrite Hc, Hr.
        now repeat split.
      * exists r. simpl in E. subst r. simpl. rewrite Hc. now repeat split.
    + exists r. simpl in *. rewrite <- E. repeat split; auto.
Qed.

Lemma first_is_space_rstrip (s : text) :
  first_is_space s = false -> first_is_space (rstrip s) = false.
Proof.
  destruct s as [| c s]; simpl; [reflexivity |].
  intros Hc. destruct (rstrip s); [rewrite Hc |]; simpl; auto.
Qed.

Lemma strip_spec (s : text) :
  exists l r, s = l +++ strip s +++ r
              /\ all_space l = true /\ all_space r = true
              /\ first_is_space (strip s) = false
              /\ last_is_space (strip s) = false.
Proof.
  destruct (lstrip_spec s) as (l & El & Hl & Hf).
  destruct (rstrip_spec (lstrip s)) as (r & Er & Hr & Hla).
  exists l, r. unfold strip. rewrite <- Er, <- El.
  repeat split; auto. now apply first_is_space_rstrip.
Qed.

Lemma lstrip_fixed (s : text) : first_is_space s = false -> lstrip s = s.
Proof.
  destruct s as [| c s]; simpl; [reflexivity |]. now intros ->.
Qed.

Lemma rstrip_cons (c : N) (r : text) :
  rstrip (c :: r)
  = match rstrip r with
    | [] => if is_space c then [] else [c]
    | x :: r' => c :: x :: r'
    end.
Proof. reflexivity. Qed.

Lemma rstrip_fixed (s : text) : last_is_space s = false -> rstrip s = s.
Proof.
  induction s as [| c s IH]; [reflexivity |].
  destruct s as [| d s'].
  - simpl. now intros ->.
  - intros H. change (last_is_space (d :: s') = false) in H.
    rewrite rstrip_cons, (IH H). reflexivity.
Qed.

Lemma strip_fixed (s : text) :
  first_is_space s = false -> last_is_space s = false -> strip s = s.
Proof.
  intros Hf Hl. unfold strip. rewrite (lstrip_fixed s Hf). now apply rstrip_fixed.
Qed.

Lemma strip_idempotent (s : text) : strip (strip s) = strip s.
Proof.
  destruct (strip_spec s) as (l & r & _ & _ & _ & Hf & Hl).
  now apply strip_fixed.
Qed.

(** ** Letter case *)

Lemma upper_table_sound : forallb upper_entry_ok upper_table = true.
Proof. vm_compute. reflexivity. Qed.

Lemma table_lookup_In (c : N) (u : text) (t : list (N * text)) :
  table_lookup c t = Some u -> In (c, u) t.
Proof.
  induction t as [| [c' u'] t IH]; simpl; [discriminate |].
  destruct (N.eqb_spec c c') as [-> | _].
  - intros [= ->]. now left.
  - intros H. right. auto.
Qed.

Lemma upper_single (c : N) : upper [c] = upper_char c.
Proof.
  unfold upper. simpl. apply app_nil_r.
Qed.

Lemma upper_append (a b : text) : upper (a +++ b) = upper a +++ upper b.
Proof.
  apply flat_map_app.
Qed.

Lemma upper_cons (c : N) (s : text) : upper (c :: s) = upper_char c +++ upper s.
Proof. reflexivity. Qed.

(** What [str.upper] does to one character, white space or not. *)
Lemma upper_char_sound (c : N) :
  upper_char c <> []
  /\ (if is_space c
      then upper_char c = [c]
      else forallb (fun x => negb (is_space x)) (upper_char c) = true)
  /\ upper (upper_char c) = upper_char c.
Proof.
  destruct (table_lookup c upper_table) as [u |] eqn:E.
  - assert (U : upper_char c = u) by (unfold upper_char; now rewrite E).
    rewrite U. apply table_lookup_In in E.
    pose proof upper_table_sound as S. rewrite forallb_forall in S.
    specialize (S _ E). unfold upper_entry_ok in S. cbn [fst snd] in S.
    apply andb_prop in S as [S Hid]. apply andb_prop in S as [S Hns].
    apply andb_prop in S as [Hc Hne].
    destruct (is_space c); [discriminate Hc |].
    repeat split.
    + destruct u; [discriminate Hne | discriminate].
    + exact Hns.
    + now destruct (text_eqb_spec (upper u) u).
  - assert (U : upper_char c = [c]) by (unfold upper_char; now rewrite E).
    rewrite U. repeat split.
    + discriminate.
    + destruct (is_space c) eqn:Hc; [reflexivity |]. simpl. now rewrite Hc.
    + now rewrite upper_single.
Qed.

Lemma upper_char_space (c : N) : is_space c = true -> upper_char c = [c].
Proof.
  intros H. destruct (upper_char_sound c) as (_ & S & _). now rewrite H in S.
Qed.

Lemma upper_char_no_space (c : N) :
  is_space c = false -> forallb (fun x => negb (is_space x)) (upper_char c) = true.
Proof.
  intros H. destruct (upper_char_sound c) as (_ & S & _). now rewrite H in S.
Qed.

Lemma upper_idempotent (s : text) : upper (upper s) = upper s.
Proof.
  induction s as [| c s IH]; [reflexivity |].
  rewrite upper_cons, upper_append, IH.
  now rewrite (proj2 (proj2 (upper_char_sound c))).
Qed.





Lemma same_letter_refl (c : N) : same_letter c c = true.
Proof.
  unfold same_letter. now rewrite N.eqb_refl.
Qed.

Lemma case_equal_refl (s : text) : case_equal s s = true.
Proof.
  induction s as [| c s IH]; simpl; [reflexivity |].
  now rewrite same_letter_refl, IH.
Qed.





Lemma same_spelling_refl (a : text) : same_spelling a a.
Proof.
  exists [], a, [], [], a, []. rewrite app_nil_r. simpl.
  repeat split; auto using case_equal_refl.
Qed.

Lemma lstrip_no_space (u x : text) :
  u <> [] -> forallb (fun c => negb (is_space c)) u = true ->
  lstrip (u +++ x) = u +++ x.
Proof.
  destruct u as [| c u]; [congruence |]. simpl. intros _ H.
  apply andb_prop in H as [H _]. now destruct (is_space c).
Qed.

Lemma rstrip_no_space (u x : text) :
  u <> [] -> forallb (fun c => negb (is_space c)) u = true ->
  rstrip (u +++ x) = u +++ rstrip x.
Proof.
  induction u as [| c u IH]; [congruence |]. intros _ H. simpl in H.
  apply andb_prop in H as [Hc Hu].
  assert (Sc : is_space c = false) by now destruct (is_space c).
  destruct u as [| d u'].
  - simpl. rewrite Sc. now destruct (rstrip x).
  - change ((c :: d :: u') +++ x) with (c :: ((d :: u') +++ x)).
    rewrite rstrip_cons, IH by (discriminate || assumption). reflexivity.
Qed.

Lemma lstrip_upper (s : text) : lstrip (upper s) = upper (lstrip s).
Proof.
  induction s as [| c s IH]; [reflexivity |].
  rewrite upper_cons. cbn [lstrip]. destruct (is_space c) eqn:Hc.
  - rewrite (upper_char_space c Hc). simpl. rewrite Hc. exact IH.
  - rewrite upper_cons. apply lstrip_no_space.
    + apply (proj1 (upper_char_sound c)).
    + now apply upper_char_no_space.
Qed.

Lemma upper_nil (s : text) : upper s = [] -> s = [].
Proof.
  destruct s as [| c s]; [reflexivity |]. rewrite upper_cons. intros H.
  apply app_eq_nil in H as [H _]. now apply (proj1 (upper_char_sound c)) in H.
Qed.

Lemma rstrip_upper (s : text) : rstrip (upper s) = upper (rstrip s).
Proof.
  induction s as [| c s IH]; [reflexivity |].
  rewrite upper_cons, rstrip_cons. destruct (is_space c) eqn:Hc.
  - rewrite (upper_char_space c Hc).
    change ([c] +++ upper s) with (c :: upper s). rewrite rstrip_cons, IH, Hc.
    destruct (rstrip s) as [| x r] eqn:E; [reflexivity |].
    destruct (upper (x :: r)) as [| y u] eqn:U.
    + apply upper_nil in U. discriminate.
    + rewrite upper_cons, (upper_char_space c Hc), U. reflexivity.
  - rewrite rstrip_no_space, IH.
    + destruct (rstrip s) as [| x r]; [| reflexivity].
      simpl. now rewrite app_nil_r.
    + apply (proj1 (upper_char_sound c)).
    + now apply upper_char_no_space.
Qed.

Lemma strip_upper (s : text) : strip (upper s) = upper (strip s).
Proof.
  unfold strip. now rewrite lstrip_upper, rstrip_upper.
Qed.

(** ** Dictionary lookup *)

Lemma assoc_In (k : string) (d : dict) (v : list string) :
  assoc k d = Some v -> In (k, v) d.
Proof.
  induction d as [| [k' v'] d IH]; simpl; [discriminate |].
  destruct (String.eqb_spec k k') as [-> | N].
  - intros [= ->]. now left.
  - intros H. right. auto.
Qed.

Lemma assoc_keys (k : string) (d : dict) :
  In k (keys d) <-> exists v, assoc k d = Some v.
Proof.
  induction d as [| [k' v'] d IH]; simpl.
  - split; [tauto | intros [v [=]]].
  - destruct (String.eqb_spec k k') as [-> | N].
    + split; [ intros _; now exists v' | now left ].
    + rewrite <- IH. split; [ intros [E | H]; [congruence | exact H] | now right ].
Qed.

(** Looking up a [str] finds what is written under the literal it equals. *)
Lemma lookup_txt (k : string) (d : dict) : lookup (txt k) d = assoc k d.
Proof.
  induction d as [| [k' v'] d IH]; simpl; [reflexivity |].
  destruct (text_eqb_spec (txt k) (txt k')) as [E | N].
  - apply txt_injective in E. subst. now rewrite String.eqb_refl.
  - destruct (String.eqb_spec k k') as [-> | _]; [congruence | exact IH].
Qed.

Lemma lookup_In (k : text) (d : dict) (v : list string) :
  lookup k d = Some v -> exists key, k = txt key /\ In (key, v) d.
Proof.
  induction d as [| [k' v'] d IH]; simpl; [discriminate |].
  destruct (text_eqb_spec k (txt k')) as [-> | _].
  - intros [= ->]. exists k'. split; [reflexivity | now left].
  - intros H. destruct (IH H) as (key & E & Hin). exists key. split; [exact E | now right].
Qed.

Lemma lookup_keys (k : text) (d : dict) :
  In k (map txt (keys d)) <-> exists v, lookup k d = Some v.
Proof.
  induction d as [| [k' v'] d IH]; simpl.
  - split; [tauto | intros [v [=]]].
  - destruct (text_eqb_spec k (txt k')) as [-> | N].
    + split; [ intros _; now exists v' | now left ].
    + rewrite <- IH. split; [ intros [E | H]; [congruence | exact H] | now right ].
Qed.

Lemma resolve_field_paths_str (a : analysis_type) (m : text) :
  resolve_field_paths (PyStr m) a =
  match lookup (upper (strip m)) (table a) with
  | Some paths => Ok paths
  | None => Raise (ValueError (unknown_model a))
  end.
Proof.
  destruct a; cbn [resolve_field_paths table unknown_model];
    unfold Mesoscale.cref_uv850_data_dir, Qpf.qpf_24h_data_dir,
      Synoptic.gh500_uv850_mslp_data_dir, dict_getitem;
    cbn [method_strip bind];
    match goal with |- context [lookup ?k ?d] => destruct (lookup k d) end;
    reflexivity.
Qed.

(** ** The resolver *)



(** Spellings with white space and letters beyond ASCII: a no-break space
    before the name, an ideographic space after it, a long s for the S. *)
Lemma resolve_field_paths_beyond_ascii :
  resolve_field_paths (PyStr (0xA0%N :: txt "ecmwf" +++ [0x3000%N])) Synoptic500hPa
  = resolve_field_paths (PyStr (txt "ECMWF")) Synoptic500hPa
  /\ resolve_field_paths (PyStr (0x17F%N :: txt "hanghai")) CompositeReflectivityAndWind
     = resolve_field_paths (PyStr (txt "SHANGHAI")) CompositeReflectivityAndWind.
Proof.
  split; vm_compute; reflexivity.
Qed.

(** C2. A model name is a string.  With one, the resolver returns a list
    when the trimmed, upper-cased name is a key of the table, raises the
    unknown-model [ValueError] when it is not, and raises nothing else. *)
Theorem resolve_field_paths_unknown_model :
  forall (a : analysis_type) (m : text),
    (In (upper (strip m)) (map txt (keys (table a))) ->
       exists paths, resolve_field_paths (PyStr m) a = Ok paths)
    /\ (~ In (upper (strip m)) (map txt (keys (table a))) ->
          resolve_field_paths (PyStr m) a = Raise (ValueError (unknown_model a)))
    /\ (forall e, resolve_field_paths (PyStr m) a = Raise e ->
          e = ValueError (unknown_model a)
          /\ ~ In (upper (strip m)) (map txt (keys (table a)))).
Proof.
  intros a m. rewrite resolve_field_paths_str.
  destruct (lookup (upper (strip m)) (table a)) as [v |] eqn:E.
  - repeat split.
    + intros _. now exists v.
    + intros N. exfalso. apply N, lookup_keys. now exists v.
    + discriminate.
    + discriminate.
  - assert (N : ~ In (upper (strip m)) (map txt (keys (table a)))).
    { intros H. apply lookup_keys in H as [v H]. congruence. }
    repeat split.
    + intros H. contradiction.
    + congruence.
    + exact N.
Qed.

Lemma resolve_field_paths_unknown_model_grapes :
  resolve_field_paths (PyStr (txt "grapes")) CompositeReflectivityAndWind
  = Raise (ValueError Mesoscale.unknown_model).
Proof.
  apply (proj1 (proj2 (resolve_field_paths_unknown_model
                         CompositeReflectivityAndWind (txt "grapes")))).
  vm_compute. intuition discriminate.
Defined.

(** What is not a string has no [strip]: the call raises before the table
    is looked at, and the [except KeyError] clause does not stand in the way. *)
Lemma resolve_field_paths_not_text (a : analysis_type) (model : pyval) :
  (forall s, model <> PyStr s) ->
  resolve_field_paths model a = Raise (AttributeError "strip").
Proof.
  intros H. destruct model as [| z | s | d]; try (destruct a; reflexivity).
  now destruct (H s).
Qed.

(** C3: the message [qpf_24h] raises names GRAPES and NCEP, which its
    table does not hold: asking for either raises the same message again. *)
Theorem qpf_24h_message_names_absent_models :
  keys Qpf.data_dirs = ["ECMWF"]
  /\ Qpf.qpf_24h_data_dir (PyStr (txt "GRAPES")) = Raise (ValueError Qpf.unknown_model)
  /\ Qpf.qpf_24h_data_dir (PyStr (txt "NCEP")) = Raise (ValueError Qpf.unknown_model)
  /\ occurs "GRAPES" Qpf.unknown_model = true
  /\ occurs "NCEP" Qpf.unknown_model = true.
Proof.
  repeat split; vm_compute; reflexivity.
Qed.

(** The messages of the two other routines name the keys of their tables:
    the synoptic one as they are written, the mesoscale one in mixed case,
    each name resolving to its key. *)
Lemma sibling_messages_name_the_keys :
  forallb (fun k => occurs k Synoptic.unknown_model) (keys Synoptic.data_dirs) = true
  /\ forallb (fun name => occurs name Mesoscale.unknown_model)
             ["ShangHai"; "BeiJing"; "Grapes_meso"; "Grapes_3km"] = true
  /\ map (fun name => upper (strip (txt name)))
         ["ShangHai"; "BeiJing"; "Grapes_meso"; "Grapes_3km"]
     = map txt (keys Mesoscale.data_dirs).
Proof.
  repeat split; vm_compute; reflexivity.
Qed.

Lemma table_entries_readable (a : analysis_type) :
  Forall (fun kv => readable (snd kv) (indexed_positions a) = true
                    /\ 1 <= List.length (snd kv)) (table a).
Proof.
  destruct a; repeat constructor.
Qed.

Lemma readable_In {A : Type} (l : list A) (positions : list Z) (i : Z) :
  readable l positions = true -> In i positions ->
  exists p, list_getitem l i = Ok p.
Proof.
  unfold readable. rewrite forallb_forall. intros H Hi.
  specialize (H i Hi). destruct (list_getitem l i) as [p | e]; [now exists p | discriminate].
Qed.

(** C8. A list the resolver returns can be read at every position its call
    site indexes: positions 0 to 2 for composite reflectivity, 0 to 3 for
    the synoptic chart, 0 for precipitation. *)
Theorem resolved_paths_cover_indexed_positions :
  forall (a : analysis_type) (model : pyval) (paths : list string),
    resolve_field_paths model a = Ok paths ->
    (match a with
     | CompositeReflectivityAndWind => 3
     | Precipitation24h => 1
     | Synoptic500hPa => 4
     end <= List.length paths)
    /\ forall i, In i (indexed_positions a) ->
                 exists p, list_getitem paths i = Ok p.
Proof.
  intros a model paths H.
  destruct model as [| z | m | d]; try (destruct a; discriminate H).
  rewrite resolve_field_paths_str in H.
  destruct (lookup (upper (strip m)) (table a)) as [v |] eqn:E; [| discriminate].
  injection H as ->. apply lookup_In in E as (key & _ & E).
  pose proof (table_entries_readable a) as F. rewrite Forall_forall in F.
  destruct (F _ E) as [R _]. cbn [snd] in R. split.
  - destruct a; cbn [table] in E; simpl in E;
      repeat (destruct E as [E | E]; [injection E as _ <-; simpl; lia |]);
      contradiction.
  - intros i Hi. now apply (readable_In paths (indexed_positions a)).
Qed.

Lemma resolved_paths_cover_indexed_positions_ncep :
  (4 <= List.length ["NCEP_GFS/HGT/500"; "NCEP_GFS/UGRD/850";
                     "NCEP_GFS/VGRD/850"; "NCEP_GFS/PRMSL"])
  /\ forall i, In i (indexed_positions Synoptic500hPa) ->
       exists p, list_getitem ["NCEP_GFS/HGT/500"; "NCEP_GFS/UGRD/850";
                               "NCEP_GFS/VGRD/850"; "NCEP_GFS/PRMSL"] i = Ok p.
Proof.
  apply (resolved_paths_cover_indexed_positions Synoptic500hPa (PyStr (txt "Ncep"))).
  vm_compute. reflexivity.
Defined.

(** [cref_uv850_compare] walks its own [data_dirs], the same literal, key
    by key, and reads positions 0 to 2 of each entry. *)
Lemma cref_uv850_compare_reads_in_range (key : string) :
  In key (keys Mesoscale.data_dirs) ->
  exists paths,
    dict_getitem Mesoscale.data_dirs (txt key) = Ok paths
    /\ readable paths (Mesoscale.indexed true) = true.
Proof.
  intros H. apply assoc_keys in H as [paths E]. exists paths.
  unfold dict_getitem. rewrite lookup_txt, E. split; [reflexivity |].
  apply assoc_In in E.
  pose proof (table_entries_readable CompositeReflectivityAndWind) as F.
  rewrite Forall_forall in F. exact (proj1 (F _ E)).
Qed.

Lemma entry_root_examples :
  option_map entry_root (assoc "SHANGHAI" Mesoscale.data_dirs) = Some "SHANGHAI_HR"
  /\ option_map entry_root (assoc "NCEP" Synoptic.data_dirs) = Some "NCEP_GFS"
  /\ option_map entry_root (assoc "ECMWF" Qpf.data_dirs) = Some "ECMWF_HR".
Proof.
  repeat split.
Qed.

Lemma table_entries_one_root (a : analysis_type) :
  Forall (fun kv => one_root kv = true /\ roots_apart (table a) kv = true)
         (table a).
Proof.
  destruct a; repeat constructor.
Qed.

(** C9. Under every key of every table, all the paths begin with one
    directory name followed by a slash; that name begins with the key, and
    no path of the entry lies under the directory of another key of the
    same table. *)
Theorem table_entry_keeps_one_root :
  forall (a : analysis_type) (key : string) (paths : list string),
    assoc key (table a) = Some paths ->
    exists root,
      root <> "" /\ occurs "/" root = false
      /\ String.prefix key root = true
      /\ (forall p, In p paths -> String.prefix (root ++ "/") p = true)
      /\ (forall key' paths',
            assoc key' (table a) = Some paths' -> key' <> key ->
            forall p, In p paths ->
                      String.prefix (entry_root paths' ++ "/") p = false).
Proof.
  intros a key paths E. apply assoc_In in E.
  pose proof (table_entries_one_root a) as F. rewrite Forall_forall in F.
  destruct (F _ E) as [R1 R2]. unfold one_root in R1. cbn [fst snd] in R1.
  apply andb_prop in R1 as [R1 Hu]. apply andb_prop in R1 as [R1 Hp].
  apply andb_prop in R1 as [Hn Hs].
  exists (entry_root paths). repeat split.
  - intros C. rewrite C in Hn. discriminate Hn.
  - now destruct (occurs "/" (entry_root paths)).
  - exact Hp.
  - unfold under_root in Hu. rewrite forallb_forall in Hu. exact Hu.
  - intros key' paths' E' N p Hp'. apply assoc_In in E'.
    unfold roots_apart in R2. rewrite forallb_forall in R2.
    specialize (R2 _ E'). cbn [fst snd] in R2.
    apply orb_prop in R2 as [R2 | R2].
    + apply String.eqb_eq in R2. congruence.
    + rewrite forallb_forall in R2. specialize (R2 p Hp').
      now destruct (String.prefix (entry_root paths' ++ "/") p).
Qed.

Lemma table_entry_keeps_one_root_shanghai :
  exists root,
    root <> "" /\ occurs "/" root = false
    /\ String.prefix "SHANGHAI" root = true
    /\ (forall p,
          In p ["SHANGHAI_HR/COMPOSITE_REFLECTIVITY/ENTIRE_ATMOSPHERE";
                "SHANGHAI_HR/UGRD/850"; "SHANGHAI_HR/VGRD/850"] ->
          String.prefix (root ++ "/") p = true)
    /\ (forall key' paths',
          assoc key' (table CompositeReflectivityAndWind) = Some paths' ->
          key' <> "SHANGHAI" ->
          forall p,
            In p ["SHANGHAI_HR/COMPOSITE_REFLECTIVITY/ENTIRE_ATMOSPHERE";
                  "SHANGHAI_HR/UGRD/850"; "SHANGHAI_HR/VGRD/850"] ->
            String.prefix (entry_root paths' ++ "/") p = false).
Proof.
  apply (table_entry_keeps_one_root CompositeReflectivityAndWind "SHANGHAI").
  reflexivity.
Defined.

(** ** Decimal digits *)

Lemma pos_size_nat_bound (p : positive) :
  (N.pos p < 2 ^ N.of_nat (Pos.size_nat p))%N.
Proof.
  induction p as [p IH | p IH |]; cbn [Pos.size_nat].
  - rewrite Nat2N.inj_succ, N.pow_succ_r'. lia.
  - rewrite Nat2N.inj_succ, N.pow_succ_r'. lia.
  - reflexivity.
Qed.

Lemma size_nat_bound (n : N) : (n < 2 ^ N.of_nat (N.size_nat n))%N.
Proof.
  destruct n as [| p]; [reflexivity | apply pos_size_nat_bound].
Qed.

Lemma dec_loop_S (f : nat) (n : N) (acc : string) :
  dec_loop (S f) n acc =
  if (n <? 10)%N then String (digit_char (n mod 10)) acc
  else dec_loop f (n / 10) (String (digit_char (n mod 10)) acc).
Proof. reflexivity. Qed.

Lemma dec_loop_app (f : nat) (n : N) (acc : string) :
  dec_loop f n acc = dec_loop f n "" ++ acc.
Proof.
  revert n acc. induction f as [| f IH]; intros n acc.
  - reflexivity.
  - rewrite !dec_loop_S. destruct (n <? 10)%N; [reflexivity |].
    rewrite (IH _ (String _ acc)), (IH _ (String _ "")), append_assoc.
    reflexivity.
Qed.

Lemma div10_bound (n : N) (f : nat) :
  (n < 2 ^ N.of_nat (S f))%N -> (n / 10 < 2 ^ N.of_nat f)%N.
Proof.
  rewrite Nat2N.inj_succ, N.pow_succ_r'. intros H.
  apply N.Div0.div_lt_upper_bound. lia.
Qed.

Lemma dec_loop_fuel (f g : nat) (n : N) (acc : string) :
  (n < 2 ^ N.of_nat f)%N -> (n < 2 ^ N.of_nat g)%N ->
  dec_loop (S f) n acc = dec_loop (S g) n acc.
Proof.
  revert g n acc. induction f as [| f IH]; intros g n acc Hf Hg;
    rewrite !dec_loop_S; destruct (N.ltb_spec n 10) as [L | L]; try reflexivity.
  - cbn in Hf. lia.
  - destruct g as [| g]; [cbn in Hg; lia |].
    apply IH; now apply div10_bound.
Qed.

Lemma decimal_unfold (n : N) :
  decimal n =
  if (n <? 10)%N then String (digit_char n) ""
  else decimal (n / 10) ++ String (digit_char (n mod 10)) "".
Proof.
  unfold decimal. rewrite dec_loop_S.
  destruct (N.ltb_spec n 10) as [L | L].
  - now rewrite N.mod_small.
  - pose proof (size_nat_bound n) as B.
    destruct (N.size_nat n) as [| k] eqn:E; [cbn in B; lia |].
    rewrite dec_loop_app. f_equal.
    apply dec_loop_fuel; [now apply div10_bound | apply size_nat_bound].
Qed.

Lemma decimal_ind (P : N -> Prop) :
  (forall n, (n < 10)%N -> P n) ->
  (forall n, (10 <= n)%N -> P (n / 10)%N -> P n) ->
  forall n, P n.
Proof.
  intros Hb Hs n.
  induction n as [n IH] using (well_founded_induction N.lt_wf_0).
  destruct (N.ltb_spec n 10) as [L | L]; [now apply Hb |].
  apply Hs; [exact L |]. apply IH, N.div_lt; lia.
Qed.

Lemma digit_cases (n : N) :
  (n < 10)%N ->
  In n [0; 1; 2; 3; 4; 5; 6; 7; 8; 9]%N.
Proof.
  intros H. simpl. lia.
Qed.

Lemma digit_char_spec (n : N) :
  (n < 10)%N ->
  is_digit (digit_char n) = true
  /\ digit_val (digit_char n) = n
  /\ (Ascii.eqb (digit_char n) "0" = true -> n = 0%N).
Proof.
  intros H. apply digit_cases in H. simpl in H.
  repeat (destruct H as [<- | H]; [repeat split; vm_compute; congruence |]).
  contradiction.
Qed.

Lemma read_digits_app (s t : string) (acc : N) :
  read_digits (s ++ t) acc =
  match read_digits s acc with
  | Some v => read_digits t v
  | None => None
  end.
Proof.
  revert acc. induction s as [| c s IH]; intros acc; cbn [append read_digits].
  - reflexivity.
  - destruct (is_digit c); [apply IH | reflexivity].
Qed.

Lemma read_digits_decimal (n acc : N) :
  read_digits (decimal n) acc
  = Some (acc * 10 ^ N.of_nat (String.length (decimal n)) + n)%N.
Proof.
  revert acc. induction n as [n L | n L IH] using decimal_ind; intros acc;
    rewrite decimal_unfold; destruct (N.ltb_spec n 10) as [L' | L']; try lia.
  - destruct (digit_char_spec n L) as (D & V & _).
    cbn [read_digits String.length]. rewrite D, V. f_equal.
    change (N.of_nat 1) with 1%N. lia.
  - assert (M : (n mod 10 < 10)%N) by (apply N.mod_lt; lia).
    destruct (digit_char_spec _ M) as (D & V & _).
    rewrite read_digits_app, IH. cbn [read_digits]. rewrite D, V. f_equal.
    rewrite length_append. cbn [String.length].
    rewrite Nat.add_1_r, Nat2N.inj_succ, N.pow_succ_r'.
    pose proof (N.div_mod n 10). lia.
Qed.

Lemma decimal_nonempty (n : N) : 1 <= String.length (decimal n).
Proof.
  rewrite decimal_unfold. destruct (n <? 10)%N; [simpl; lia |].
  rewrite length_append. simpl. lia.
Qed.

Lemma decimal_length_le (k : nat) (n : N) :
  (n < 10 ^ N.of_nat (S k))%N -> String.length (decimal n) <= S k.
Proof.
  revert n. induction k as [| k IH]; intros n H;
    rewrite decimal_unfold; destruct (N.ltb_spec n 10) as [L | L];
    try (simpl; lia).
  rewrite length_append. cbn [String.length]. rewrite Nat.add_1_r.
  apply le_n_S, IH.
  rewrite Nat2N.inj_succ, N.pow_succ_r' in H.
  apply N.Div0.div_lt_upper_bound. exact H.
Qed.

Lemma decimal_length_gt (k : nat) (n : N) :
  (10 ^ N.of_nat k <= n)%N -> k < String.length (decimal n).
Proof.
  revert n. induction k as [| k IH]; intros n H.
  - apply decimal_nonempty.
  - rewrite Nat2N.inj_succ, N.pow_succ_r' in H.
    assert (P : (1 <= 10 ^ N.of_nat k)%N).
    { apply N.lt_pred_le, N.neq_0_lt_0, N.pow_nonzero. discriminate. }
    rewrite decimal_unfold. destruct (N.ltb_spec n 10) as [L | L]; [lia |].
    rewrite length_append. cbn [String.length]. rewrite Nat.add_1_r.
    apply -> Nat.succ_lt_mono. apply IH.
    apply N.div_le_lower_bound; lia.
Qed.

Lemma leading_zero_append (s t : string) :
  1 <= String.length s -> leading_zero (s ++ t) = leading_zero s.
Proof.
  destruct s; simpl; [lia | reflexivity].
Qed.

Lemma decimal_leading (n : N) : (0 < n)%N -> leading_zero (decimal n) = false.
Proof.
  induction n as [n L | n L IH] using decimal_ind; intros H;
    rewrite decimal_unfold; destruct (N.ltb_spec n 10) as [L' | L']; try lia.
  - destruct (digit_char_spec n L) as (_ & _ & Z0). cbn [leading_zero].
    destruct (Ascii.eqb (digit_char n) "0"); [specialize (Z0 eq_refl); lia | reflexivity].
  - rewrite leading_zero_append by apply decimal_nonempty.
    apply IH. apply N.div_str_pos. lia.
Qed.

(** ** Zero filling *)

Lemma length_zeros (k : nat) : String.length (zeros k) = k.
Proof.
  induction k as [| k IH]; simpl; [reflexivity | now rewrite IH].
Qed.

Lemma length_zfill (w : nat) (s : string) :
  String.length (zfill w s) = Nat.max w (String.length s).
Proof.
  unfold zfill. rewrite length_append, length_zeros. lia.
Qed.

Lemma read_digits_zeros (k : nat) (s : string) :
  read_digits (zeros k ++ s) 0 = read_digits s 0.
Proof.
  induction k as [| k IH]; [reflexivity | exact IH].
Qed.

Lemma parse_decimal_read (s : string) :
  1 <= String.length s -> parse_decimal s = read_digits s 0.
Proof.
  destruct s; simpl; [lia | reflexivity].
Qed.

Lemma parse_zfill_decimal (w : nat) (n : N) :
  parse_decimal (zfill w (decimal n)) = Some n.
Proof.
  rewrite parse_decimal_read.
  - unfold zfill. rewrite read_digits_zeros, read_digits_decimal. f_equal.
  - rewrite length_zfill. pose proof (decimal_nonempty n). lia.
Qed.

Lemma zero_padded_zfill (w : nat) (n : N) :
  1 <= w -> zero_padded w n (zfill w (decimal n)).
Proof.
  intros W. unfold zero_padded. rewrite length_zfill.
  split; [apply parse_zfill_decimal |]. split; [lia |].
  intros H. unfold zfill.
  replace (w - String.length (decimal n)) with 0 by lia. cbn [zeros append].
  apply decimal_leading.
  destruct (N.eq_dec n 0) as [-> | N0]; [| lia].
  change (String.length (decimal 0)) with 1 in H. lia.
Qed.

Lemma length_zfill_small (k : nat) (n : N) :
  (n < 10 ^ N.of_nat (S k))%N -> String.length (zfill (S k) (decimal n)) = S k.
Proof.
  intros H. rewrite length_zfill. apply decimal_length_le in H. lia.
Qed.

Lemma length_zfill_large (k : nat) (n : N) :
  (10 ^ N.of_nat k <= n)%N -> k < String.length (zfill k (decimal n)).
Proof.
  intros H. rewrite length_zfill. apply decimal_length_gt in H. lia.
Qed.

(** ** [model_filename] *)

Lemma pad_03d_nonneg (fh : Z) :
  (0 <= fh)%Z -> pad_03d fh = zfill 3 (decimal (Z.to_N fh)).
Proof.
  intros H. unfold pad_03d. destruct (Z.ltb_spec fh 0); [lia | reflexivity].
Qed.

Lemma pad_03d_neg (fh : Z) :
  (fh < 0)%Z -> pad_03d fh = String "-" (zfill 2 (decimal (Z.abs_N fh))).
Proof.
  intros H. unfold pad_03d. destruct (Z.ltb_spec fh 0); [reflexivity | lia].
Qed.

(** No setting of the limit refuses an integer of 640 digits or fewer. *)
Lemma short_within_limit (limit : N) (z : Z) :
  valid_limit limit = true -> (Z.abs z < 10 ^ 640)%Z -> too_long limit z = false.
Proof.
  unfold valid_limit, too_long. intros V H.
  destruct (N.ltb_spec 0 limit) as [P | P]; [| reflexivity]. simpl.
  apply orb_prop in V as [V | V]; [apply N.eqb_eq in V; lia |].
  apply N.leb_le in V. apply Z.leb_gt.
  apply Z.lt_le_trans with (1 := H). apply Z.pow_le_mono_r; lia.
Qed.

(** Forecast hours of everyday size pass under every setting. *)
Lemma small_within_limit (limit : N) (z : Z) :
  valid_limit limit = true -> (Z.abs z <? 10000)%Z = true -> too_long limit z = false.
Proof.
  intros V H. apply short_within_limit; [exact V |].
  apply Z.ltb_lt in H. apply Z.lt_le_trans with (1 := H).
  change 10000%Z with (10 ^ 4)%Z. apply Z.pow_le_mono_r; lia.
Qed.


(** The first integer with one digit more than the limit is refused, and
    so is its opposite. *)
Lemma power_too_long (limit : N) :
  (0 < limit)%N -> too_long limit (10 ^ Z.of_N limit) = true.
Proof.
  intros H. unfold too_long. apply andb_true_intro. split.
  - now apply N.ltb_lt.
  - apply Z.leb_le. rewrite Z.abs_eq; [apply Z.le_refl | apply Z.pow_nonneg; lia].
Qed.

Lemma too_long_opp (limit : N) (z : Z) : too_long limit (- z) = too_long limit z.
Proof. unfold too_long. now rewrite Z.abs_opp. Qed.

Lemma model_filename_str (limit : N) (s : text) (fh : Z) :
  too_long limit fh = false ->
  model_filename limit (PyStr s) (PyInt fh) = Ok (strip s +++ txt ("." ++ pad_03d fh)).
Proof.
  intros H. unfold model_filename, format_fhour, format_03d. now rewrite H.
Qed.

Lemma model_filename_dt (limit : N) (d : datetime) (fh : Z) :
  too_long limit fh = false ->
  model_filename limit (PyDatetime d) (PyInt fh)
  = Ok (txt (strftime_ymdH d) +++ txt ("." ++ pad_03d fh)).
Proof.
  intros H. unfold model_filename, format_fhour, format_03d. now rewrite H.
Qed.

(** An integer of more digits than the limit is refused, whatever the time. *)
Lemma model_filename_refused (limit : N) (t : pyval) (fh : Z) :
  is_time t = true -> too_long limit fh = true ->
  model_filename limit t (PyInt fh) = Raise (ValueError (limit_message limit)).
Proof.
  intros T H. destruct t; try discriminate T;
    unfold model_filename, format_fhour, format_03d; cbn [method_strip bind];
    now rewrite H.
Qed.

Lemma model_filename_int_ok (limit : N) (t : pyval) (fh : Z) (name : text) :
  model_filename limit t (PyInt fh) = Ok name -> too_long limit fh = false.
Proof.
  destruct (too_long limit fh) eqn:H; [| reflexivity].
  destruct t; unfold model_filename, format_fhour, format_03d;
    cbn [method_strip bind]; rewrite ?H; discriminate.
Qed.

Lemma two_digits_spec (n : N) :
  (n < 100)%N ->
  String.length (two_digits n) = 2 /\ parse_decimal (two_digits n) = Some n.
Proof.
  intros H. unfold two_digits. split.
  - apply length_zfill_small. exact H.
  - apply parse_zfill_decimal.
Qed.

Lemma days_in_month_le (y m : N) : (days_in_month y m <= 31)%N.
Proof.
  unfold days_in_month.
  destruct (m =? 2)%N; [destruct (is_leap y); lia |].
  destruct ((m =? 4) || (m =? 6) || (m =? 9) || (m =? 11))%N; lia.
Qed.

Lemma valid_datetime_bounds (d : datetime) :
  valid_datetime d = true ->
  (month d < 100 /\ day d < 100 /\ hour d < 100)%N.
Proof.
  unfold valid_datetime. intros H.
  rewrite !andb_true_iff, !N.leb_le, !N.ltb_lt in H.
  pose proof (days_in_month_le (year d) (month d)). lia.
Qed.







(** White space beyond ASCII is trimmed as well: a no-break space before
    the time and a line separator after it. *)
Lemma model_filename_string_beyond_ascii :
  model_filename default_max_str_digits
    (PyStr (0xA0%N :: txt "18042008" +++ [0x2028%N])) (PyInt 0)
  = Ok (txt "18042008.000").
Proof.
  rewrite model_filename_str by (apply small_within_limit; reflexivity).
  vm_compute. reflexivity.
Qed.

Lemma digit_val_bound (c : ascii) : is_digit c = true -> (digit_val c <= 9)%N.
Proof.
  unfold is_digit, digit_val, nat_of_ascii. intros H.
  apply andb_prop in H as [_ H]. apply Nat.leb_le in H. lia.
Qed.

Lemma read_digits_String (c : ascii) (r : string) (acc : N) :
  read_digits (String c r) acc
  = if is_digit c then read_digits r (10 * acc + digit_val c)%N else None.
Proof. reflexivity. Qed.

Lemma three_digits_below_1000 (s : string) (n : N) :
  String.length s = 3 -> parse_decimal s = Some n -> (n < 1000)%N.
Proof.
  destruct s as [| a [| b [| c [| x s]]]]; try discriminate. intros _.
  unfold parse_decimal. rewrite !read_digits_String.
  destruct (is_digit a) eqn:Da; [| discriminate].
  destruct (is_digit b) eqn:Db; [| discriminate].
  destruct (is_digit c) eqn:Dc; [| discriminate].
  change (read_digits "" ?v) with (Some v). intros E.
  apply digit_val_bound in Da, Db, Dc.
  assert (E' : (10 * (10 * (10 * 0 + digit_val a) + digit_val b) + digit_val c)%N = n)
    by congruence.
  lia.
Qed.

(** C6, as stated, fails: at forecast hour 1000 the name is
    ["18042008.1000"], and no three digits after a dot spell 1000. *)
Lemma model_filename_suffix_not_three_digits :
  model_filename default_max_str_digits (PyStr (txt "18042008")) (PyInt 1000)
  = Ok (txt "18042008.1000")
  /\ ~ (exists pre ff,
          model_filename default_max_str_digits (PyStr (txt "18042008")) (PyInt 1000)
          = Ok (pre +++ txt ("." ++ ff))
          /\ String.length ff = 3
          /\ parse_decimal ff = Some 1000%N).
Proof.
  split.
  { rewrite model_filename_str by (apply small_within_limit; reflexivity).
    reflexivity. }
  intros (pre & ff & _ & L & P).
  pose proof (three_digits_below_1000 ff 1000 L P). lia.
Qed.

(** C6, amended. For text or a [datetime] and a forecast hour that is not
    negative and has no more digits than the interpreter allows, the name
    ends with a dot and the forecast hour in decimal, filled with zeros to
    three characters: exactly three below 1000, and all the digits of the
    hour, more than three, from 1000 on. *)
Theorem model_filename_suffix_at_least_three_digits :
  forall (limit : N) (t : pyval) (fh : Z),
    is_time t = true -> (0 <= fh)%Z -> too_long limit fh = false ->
    exists pre ff,
      model_filename limit t (PyInt fh) = Ok (pre +++ txt ("." ++ ff))
      /\ zero_padded 3 (Z.to_N fh) ff
      /\ ((fh < 1000)%Z -> String.length ff = 3)
      /\ ((1000 <= fh)%Z -> 3 < String.length ff).
Proof.
  intros limit t fh T H L.
  assert (P : zero_padded 3 (Z.to_N fh) (zfill 3 (decimal (Z.to_N fh)))
              /\ ((fh < 1000)%Z ->
                  String.length (zfill 3 (decimal (Z.to_N fh))) = 3)
              /\ ((1000 <= fh)%Z ->
                  3 < String.length (zfill 3 (decimal (Z.to_N fh))))).
  { split; [apply zero_padded_zfill; lia |]. split; intros B.
    - apply length_zfill_small. change (10 ^ N.of_nat 3)%N with 1000%N. lia.
    - apply length_zfill_large. change (10 ^ N.of_nat 3)%N with 1000%N. lia. }
  destruct t as [| z | s | d]; try discriminate T.
  - exists (strip s), (zfill 3 (decimal (Z.to_N fh))).
    now rewrite (model_filename_str limit s fh L), (pad_03d_nonneg fh H).
  - exists (txt (strftime_ymdH d)), (zfill 3 (decimal (Z.to_N fh))).
    now rewrite (model_filename_dt limit d fh L), (pad_03d_nonneg fh H).
Qed.

Lemma model_filename_suffix_at_least_three_digits_1000 :
  exists pre ff,
    model_filename default_max_str_digits (PyStr (txt "18042008")) (PyInt 1000)
    = Ok (pre +++ txt ("." ++ ff))
    /\ zero_padded 3 1000 ff
    /\ ((1000 < 1000)%Z -> String.length ff = 3)
    /\ ((1000 <= 1000)%Z -> 3 < String.length ff).
Proof.
  apply (model_filename_suffix_at_least_three_digits
           default_max_str_digits (PyStr (txt "18042008")) 1000%Z).
  - reflexivity.
  - lia.
  - apply small_within_limit; reflexivity.
Defined.




(** C10, as stated, fails: with the limit of 4300 digits the forecast hour
    [-10 ** 4300] is refused. *)
Lemma model_filename_negative_refused :
  ~ (exists name,
       model_filename default_max_str_digits (PyStr []) (PyInt (- 10 ^ 4300))
       = Ok name).
Proof.
  intros [name H].
  rewrite (model_filename_refused default_max_str_digits) in H;
    [discriminate | reflexivity |].
  rewrite too_long_opp. exact (power_too_long 4300 eq_refl).
Qed.

(** C10, amended. For text or a [datetime] and an integer forecast hour of
    no more digits than the interpreter allows, [model_filename] returns a
    name; for a negative hour the name ends with a dot, a minus sign and
    the digits of the hour filled with zeros to two characters, three with
    the sign: the empty text with hour -1 gives [".-01"].  An hour of more
    digits is refused with a [ValueError]. *)
Theorem model_filename_total :
  (forall (limit : N) (t : pyval) (fh : Z),
      is_time t = true -> too_long limit fh = false ->
      exists name, model_filename limit t (PyInt fh) = Ok name)
  /\ (forall (limit : N) (t : pyval) (fh : Z),
        is_time t = true -> too_long limit fh = false -> (fh < 0)%Z ->
        exists pre ff,
          model_filename limit t (PyInt fh) = Ok (pre +++ txt ("." ++ String "-" ff))
          /\ zero_padded 2 (Z.abs_N fh) ff)
  /\ (forall (limit : N) (t : pyval) (fh : Z),
        is_time t = true -> too_long limit fh = true ->
        model_filename limit t (PyInt fh) = Raise (ValueError (limit_message limit)))
  /\ (forall limit : N,
        valid_limit limit = true ->
        model_filename limit (PyStr []) (PyInt (-1)) = Ok (txt ".-01")
        /\ model_filename limit (PyStr []) (PyInt 0) = Ok (txt ".000")).
Proof.
  split; [| split; [| split]].
  - intros limit [| z | s | d] fh T L; try discriminate T.
    + eexists. now apply model_filename_str.
    + eexists. now apply model_filename_dt.
  - intros limit [| z | s | d] fh T L H; try discriminate T.
    + exists (strip s), (zfill 2 (decimal (Z.abs_N fh))).
      rewrite (model_filename_str limit s fh L), (pad_03d_neg fh H).
      split; [reflexivity | apply zero_padded_zfill; lia].
    + exists (txt (strftime_ymdH d)), (zfill 2 (decimal (Z.abs_N fh))).
      rewrite (model_filename_dt limit d fh L), (pad_03d_neg fh H).
      split; [reflexivity | apply zero_padded_zfill; lia].
  - intros limit t fh T L. now apply model_filename_refused.
  - intros limit V. split; (rewrite model_filename_str; [reflexivity |]);
      (apply small_within_limit; [exact V | reflexivity]).
Qed.

Lemma model_filename_total_minus_one :
  exists pre ff,
    model_filename default_max_str_digits (PyStr []) (PyInt (-1))
    = Ok (pre +++ txt ("." ++ String "-" ff))
    /\ zero_padded 2 1 ff.
Proof.
  apply (proj1 (proj2 model_filename_total) default_max_str_digits (PyStr []) (-1)%Z).
  - reflexivity.
  - apply small_within_limit; reflexivity.
  - lia.
Defined.

(** ** Further facts: the lookup key *)

(** X1. The key the lookups build is a normal form: building it again from
    itself changes nothing, so a model name and its trimmed, upper-cased
    form resolve alike in every table. *)
Theorem resolve_field_paths_canonical_key :
  forall (a : analysis_type) (m : text),
    upper (strip (upper (strip m))) = upper (strip m)
    /\ resolve_field_paths (PyStr (upper (strip m))) a
       = resolve_field_paths (PyStr m) a.
Proof.
  intros a m.
  assert (E : upper (strip (upper (strip m))) = upper (strip m))
    by now rewrite strip_upper, strip_idempotent, upper_idempotent.
  split; [exact E |]. now rewrite !resolve_field_paths_str, E.
Qed.

Lemma table_keys_canonical (a : analysis_type) :
  NoDup (keys (table a))
  /\ Forall (fun k => upper (strip (txt k)) = txt k) (keys (table a)).
Proof.
  destruct a; split; repeat constructor;
    try (vm_compute; reflexivity); simpl; intuition discriminate.
Qed.

Lemma In_assoc (k : string) (v : list string) (d : dict) :
  NoDup (keys d) -> In (k, v) d -> assoc k d = Some v.
Proof.
  induction d as [| [k' v'] d IH]; simpl; [contradiction |].
  intros N H. inversion N as [| x l Nin N']; subst.
  destruct H as [[= -> ->] | H].
  - now rewrite String.eqb_refl.
  - destruct (String.eqb_spec k k') as [-> | _]; [| now apply IH].
    exfalso. apply Nin. apply (in_map fst) in H. exact H.
Qed.

(** X2. What the lookups can return is what the tables hold: every entry
    is returned when its key is given as written in the table (the keys
    are distinct and already trimmed and upper-cased), and a list that is
    returned is the entry stored under the trimmed, upper-cased name, the
    name being text. *)
Theorem resolve_field_paths_range :
  forall (a : analysis_type),
    (forall key paths,
        In (key, paths) (table a) ->
        resolve_field_paths (PyStr (txt key)) a = Ok paths)
    /\ (forall model paths,
          resolve_field_paths model a = Ok paths ->
          exists m key,
            model = PyStr m /\ upper (strip m) = txt key
            /\ In (key, paths) (table a)).
Proof.
  intros a. destruct (table_keys_canonical a) as [N C]. split.
  - intros key paths H. rewrite resolve_field_paths_str.
    rewrite Forall_forall in C.
    rewrite (C key) by (apply (in_map fst) in H; exact H).
    now rewrite lookup_txt, (In_assoc key paths (table a) N H).
  - intros model paths H.
    destruct model as [| z | m | d]; try (destruct a; discriminate H).
    rewrite resolve_field_paths_str in H.
    destruct (lookup (upper (strip m)) (table a)) as [v |] eqn:E; [| discriminate].
    injection H as ->. apply lookup_In in E as (key & E & Hin).
    exists m, key. now repeat split.
Qed.

Lemma resolve_field_paths_range_grapes_3km :
  resolve_field_paths (PyStr (txt "GRAPES_3KM")) CompositeReflectivityAndWind
  = Ok ["GRAPES_3KM/RADAR_COMBINATION_REFLECTIVITY";
        "GRAPES_3KM/UGRD/850"; "GRAPES_3KM/VGRD/850"].
Proof.
  apply (proj1 (resolve_field_paths_range CompositeReflectivityAndWind)).
  simpl. tauto.
Defined.

(** ** Further facts: file names *)

Lemma all_digits_append (a b : string) :
  all_digits (a ++ b) = all_digits a && all_digits b.
Proof.
  induction a as [| c a IH]; simpl; [reflexivity |].
  now rewrite IH, andb_assoc.
Qed.

Lemma all_digits_zeros (k : nat) : all_digits (zeros k) = true.
Proof.
  induction k as [| k IH]; [reflexivity | exact IH].
Qed.

Lemma all_digits_decimal (n : N) : all_digits (decimal n) = true.
Proof.
  induction n as [n L | n L IH] using decimal_ind;
    rewrite decimal_unfold; destruct (N.ltb_spec n 10) as [L' | L']; try lia.
  - destruct (digit_char_spec n L) as (D & _). simpl. now rewrite D.
  - assert (M : (n mod 10 < 10)%N) by (apply N.mod_lt; lia).
    destruct (digit_char_spec _ M) as (D & _).
    rewrite all_digits_append, IH. simpl. now rewrite D.
Qed.

Lemma all_digits_zfill (w : nat) (n : N) : all_digits (zfill w (decimal n)) = true.
Proof.
  unfold zfill. now rewrite all_digits_append, all_digits_zeros, all_digits_decimal.
Qed.

Lemma digit_code (c : ascii) :
  is_digit c = true -> (48 <= N_of_ascii c <= 57)%N.
Proof.
  unfold is_digit, nat_of_ascii. cbv zeta. intros H.
  apply andb_prop in H as [H1 H2]. apply Nat.leb_le in H1, H2. lia.
Qed.

Lemma digit_not_space (c : ascii) : is_digit c = true -> is_space (N_of_ascii c) = false.
Proof.
  intros H. apply digit_code in H. unfold is_space.
  set (n := N_of_ascii c) in *.
  assert (A1 : (n <=? 13)%N = false) by (apply N.leb_gt; lia).
  assert (A2 : (n <=? 32)%N = false) by (apply N.leb_gt; lia).
  assert (A3 : (8192 <=? n)%N = false) by (apply N.leb_gt; lia).
  assert (E : forall k, (57 < k)%N -> (n =? k)%N = false)
    by (intros k K; apply N.eqb_neq; lia).
  rewrite A1, A2, A3, !E by lia. now rewrite !andb_false_r.
Qed.

Lemma digit_not_dot (c : ascii) : is_digit c = true -> (46 =? N_of_ascii c)%N = false.
Proof.
  intros H. apply digit_code in H. apply N.eqb_neq. lia.
Qed.

Lemma txt_String (c : ascii) (s : string) : txt (String c s) = N_of_ascii c :: txt s.
Proof. reflexivity. Qed.

Lemma all_digits_ends (s : string) :
  all_digits s = true ->
  first_is_space (txt s) = false /\ last_is_space (txt s) = false.
Proof.
  intros H. split.
  - destruct s as [| c s]; [reflexivity |]. simpl in H.
    apply andb_prop in H as [H _]. rewrite txt_String. cbn [first_is_space].
    now apply digit_not_space.
  - induction s as [| c s IH]; [reflexivity |]. simpl in H.
    apply andb_prop in H as [Hc Hs]. destruct s as [| d s'].
    + cbn. now apply digit_not_space.
    + rewrite txt_String.
      change (last_is_space (N_of_ascii c :: txt (String d s')))
        with (last_is_space (txt (String d s'))).
      exact (IH Hs).
Qed.

Lemma all_digits_no_dot (s : string) :
  all_digits s = true -> has_char 46 (txt s) = false.
Proof.
  induction s as [| c s IH]; [reflexivity |]. intros H. simpl in H.
  apply andb_prop in H as [Hc Hs]. rewrite txt_String.
  unfold has_char in *. cbn [existsb]. now rewrite (digit_not_dot c Hc), (IH Hs).
Qed.

Lemma all_digits_strftime (d : datetime) : all_digits (strftime_ymdH d) = true.
Proof.
  unfold strftime_ymdH, two_digits.
  now rewrite !all_digits_append, !all_digits_zfill.
Qed.

(** X3. The two forms of [initial_time] agree: a [datetime] gives the name
    its ['%y%m%d%H'] text gives, with every [fhour], also where that is
    refused. *)
Theorem model_filename_datetime_as_text :
  forall (limit : N) (d : datetime) (fhour : pyval),
    model_filename limit (PyDatetime d) fhour
    = model_filename limit (PyStr (txt (strftime_ymdH d))) fhour.
Proof.
  intros limit d fhour. unfold model_filename. cbn [method_strip bind].
  destruct (all_digits_ends _ (all_digits_strftime d)) as [Hf Hl].
  now rewrite (strip_fixed _ Hf Hl).
Qed.

Lemma pad_03d_no_dot (z : Z) : has_char 46 (txt (pad_03d z)) = false.
Proof.
  unfold pad_03d. destruct (z <? 0)%Z; cbv iota.
  - rewrite txt_String. unfold has_char. cbn [existsb].
    change (existsb (N.eqb 46) ?s) with (has_char 46 s).
    rewrite all_digits_no_dot by apply all_digits_zfill. reflexivity.
  - apply all_digits_no_dot, all_digits_zfill.
Qed.

Lemma has_char_append (c : N) (a b : text) :
  has_char c (a +++ b) = has_char c a || has_char c b.
Proof. apply existsb_app. Qed.

Lemma has_dot_after (p s : text) : has_char 46 (p +++ 46%N :: s) = true.
Proof.
  rewrite has_char_append. cbn. apply orb_true_r.
Qed.

(** A name splits at its last dot in one way only. *)
Lemma split_last_dot (p1 p2 s1 s2 : text) :
  has_char 46 s1 = false -> has_char 46 s2 = false ->
  p1 +++ 46%N :: s1 = p2 +++ 46%N :: s2 -> p1 = p2 /\ s1 = s2.
Proof.
  intros H1 H2. revert p2.
  induction p1 as [| c p1 IH]; intros [| c' p2] E; cbn in E.
  - injection E as ->. now split.
  - injection E as <- ->. rewrite has_dot_after in H1. discriminate.
  - injection E as -> <-. rewrite has_dot_after in H2. discriminate.
  - injection E as -> E. destruct (IH p2 E) as [-> ->]. now split.
Qed.

Lemma pad_03d_injective (z1 z2 : Z) : pad_03d z1 = pad_03d z2 -> z1 = z2.
Proof.
  unfold pad_03d.
  destruct (Z.ltb_spec z1 0) as [N1 | P1], (Z.ltb_spec z2 0) as [N2 | P2]; intros E.
  - injection E as E. apply (f_equal parse_decimal) in E.
    rewrite !parse_zfill_decimal in E. injection E as E. lia.
  - apply (f_equal all_digits) in E. rewrite all_digits_zfill in E. discriminate.
  - apply (f_equal all_digits) in E. rewrite all_digits_zfill in E. discriminate.
  - apply (f_equal parse_decimal) in E.
    rewrite !parse_zfill_decimal in E. injection E as E. lia.
Qed.

(** Two names with the same text are made of the same time and hour. *)
Lemma same_name_parts (p1 p2 : text) (f1 f2 : Z) :
  p1 +++ txt ("." ++ pad_03d f1) = p2 +++ txt ("." ++ pad_03d f2) ->
  p1 = p2 /\ f1 = f2.
Proof.
  intros E.
  change (txt ("." ++ pad_03d f1)) with (46%N :: txt (pad_03d f1)) in E.
  change (txt ("." ++ pad_03d f2)) with (46%N :: txt (pad_03d f2)) in E.
  destruct (split_last_dot _ _ _ _ (pad_03d_no_dot f1) (pad_03d_no_dot f2) E)
    as [Es Ef].
  split; [exact Es | now apply pad_03d_injective, txt_injective].
Qed.

(** X4. With text for the time, two calls that return one name were given
    the same trimmed text and the same forecast hour: names of different
    runs or hours never collide. *)
Theorem model_filename_text_injective :
  forall (limit : N) (s1 s2 : text) (f1 f2 : Z) (name : text),
    model_filename limit (PyStr s1) (PyInt f1) = Ok name ->
    model_filename limit (PyStr s2) (PyInt f2) = Ok name ->
    strip s1 = strip s2 /\ f1 = f2.
Proof.
  intros limit s1 s2 f1 f2 name E1 E2.
  pose proof (model_filename_int_ok _ _ _ _ E1) as L1.
  pose proof (model_filename_int_ok _ _ _ _ E2) as L2.
  rewrite (model_filename_str limit s1 f1 L1) in E1.
  rewrite (model_filename_str limit s2 f2 L2) in E2.
  apply same_name_parts. congruence.
Qed.

Lemma model_filename_text_injective_padded :
  strip (0xA0%N :: txt "18042008") = strip (txt "18042008 ") /\ 3%Z = 3%Z.
Proof.
  apply (model_filename_text_injective default_max_str_digits
           (0xA0%N :: txt "18042008") (txt "18042008 ") 3 3 (txt "18042008.003"));
    rewrite model_filename_str by (apply small_within_limit; reflexivity);
    vm_compute; reflexivity.
Defined.

Lemma append_same_length (a b x y : string) :
  String.length a = String.length b -> a ++ x = b ++ y -> a = b /\ x = y.
Proof.
  revert b. induction a as [| c a IH]; intros [| c' b] L E; try discriminate.
  - now split.
  - injection L as L. injection E as -> E.
    destruct (IH b L E) as [-> ->]. now split.
Qed.

Lemma two_digits_injective (m n : N) :
  (m < 100)%N -> (n < 100)%N -> two_digits m = two_digits n -> m = n.
Proof.
  intros Hm Hn E. apply (f_equal parse_decimal) in E.
  rewrite (proj2 (two_digits_spec m Hm)), (proj2 (two_digits_spec n Hn)) in E.
  now injection E.
Qed.

Lemma strftime_fields (d1 d2 : datetime) :
  valid_datetime d1 = true -> valid_datetime d2 = true ->
  strftime_ymdH d1 = strftime_ymdH d2 -> name_fields d1 = name_fields d2.
Proof.
  intros V1 V2 E.
  destruct (valid_datetime_bounds d1 V1) as (M1 & D1 & H1).
  destruct (valid_datetime_bounds d2 V2) as (M2 & D2 & H2).
  assert (Y1 : (year d1 mod 100 < 100)%N) by (apply N.mod_lt; discriminate).
  assert (Y2 : (year d2 mod 100 < 100)%N) by (apply N.mod_lt; discriminate).
  unfold strftime_ymdH in E.
  apply append_same_length in E as [Ey E];
    [| now rewrite (proj1 (two_digits_spec _ Y1)), (proj1 (two_digits_spec _ Y2))].
  apply append_same_length in E as [Em E];
    [| now rewrite (proj1 (two_digits_spec _ M1)), (proj1 (two_digits_spec _ M2))].
  apply append_same_length in E as [Ed Eh];
    [| now rewrite (proj1 (two_digits_spec _ D1)), (proj1 (two_digits_spec _ D2))].
  unfold name_fields.
  now rewrite (two_digits_injective _ _ Y1 Y2 Ey), (two_digits_injective _ _ M1 M2 Em),
    (two_digits_injective _ _ D1 D2 Ed), (two_digits_injective _ _ H1 H2 Eh).
Qed.

(** X5. With a [datetime] for the time and forecast hours of no more
    digits than the interpreter allows, two calls give one name exactly
    when the forecast hours are the same and the times agree in year
    within the century, month, day and hour: the century, the minutes and
    all below are not in the name. *)
Theorem model_filename_datetime_same_name :
  forall (limit : N) (d1 d2 : datetime) (f1 f2 : Z),
    valid_datetime d1 = true -> valid_datetime d2 = true ->
    too_long limit f1 = false -> too_long limit f2 = false ->
    (model_filename limit (PyDatetime d1) (PyInt f1)
     = model_filename limit (PyDatetime d2) (PyInt f2)
     <-> name_fields d1 = name_fields d2 /\ f1 = f2).
Proof.
  intros limit d1 d2 f1 f2 V1 V2 L1 L2.
  rewrite (model_filename_dt limit d1 f1 L1), (model_filename_dt limit d2 f2 L2). split.
  - intros E. injection E as E.
    apply same_name_parts in E as [Et Ef].
    split; [now apply strftime_fields, txt_injective | exact Ef].
  - intros [E ->]. unfold name_fields in E. injection E as Ey Em Ed Eh.
    unfold strftime_ymdH. now rewrite Ey, Em, Ed, Eh.
Qed.

Lemma model_filename_datetime_same_name_century :
  model_filename default_max_str_digits
    (PyDatetime (mk_datetime 2018 4 20 8 0 0 0)) (PyInt 3)
  = model_filename default_max_str_digits
      (PyDatetime (mk_datetime 1918 4 20 8 30 15 0)) (PyInt 3).
Proof.
  apply (proj2 (model_filename_datetime_same_name default_max_str_digits
                  (mk_datetime 2018 4 20 8 0 0 0)
                  (mk_datetime 1918 4 20 8 30 15 0) 3 3 eq_refl eq_refl
                  (small_within_limit default_max_str_digits 3 eq_refl eq_refl)
                  (small_within_limit default_max_str_digits 3 eq_refl eq_refl))).
  split; reflexivity.
Defined.

Lemma length_strftime (d : datetime) :
  valid_datetime d = true -> String.length (strftime_ymdH d) = 8.
Proof.
  intros V. destruct (valid_datetime_bounds d V) as (M & D & H).
  assert (Y : (year d mod 100 < 100)%N) by (apply N.mod_lt; discriminate).
  unfold strftime_ymdH. rewrite !length_append.
  now rewrite (proj1 (two_digits_spec _ Y)), (proj1 (two_digits_spec _ M)),
    (proj1 (two_digits_spec _ D)), (proj1 (two_digits_spec _ H)).
Qed.

(** X6. For a [datetime] and a forecast hour of no more digits than the
    interpreter allows, the name has the dot in ninth place; from -99 to
    999 it has exactly twelve characters, and outside that range it is
    longer. *)
Theorem model_filename_datetime_length :
  forall (limit : N) (d : datetime) (fh : Z),
    valid_datetime d = true -> too_long limit fh = false ->
    exists name,
      model_filename limit (PyDatetime d) (PyInt fh) = Ok name
      /\ nth_error name 8 = Some 46%N
      /\ ((-100 < fh < 1000)%Z -> List.length name = 12)
      /\ ((fh <= -100 \/ 1000 <= fh)%Z -> 12 < List.length name).
Proof.
  intros limit d fh V T. exists (txt (strftime_ymdH d) +++ txt ("." ++ pad_03d fh)).
  pose proof (length_strftime d V) as L.
  split; [now apply model_filename_dt |]. split.
  - destruct (strftime_ymdH d) as [| c1 [| c2 [| c3 [| c4 [| c5 [| c6 [| c7 [| c8 [| x s]]]]]]]]];
      try discriminate L. reflexivity.
  - rewrite length_app, !length_txt, L. cbn [append String.length].
    unfold pad_03d. destruct (Z.ltb_spec fh 0) as [N0 | P0]; cbn [String.length].
    + split; intros B.
      * rewrite (length_zfill_small 1 (Z.abs_N fh));
          [lia | change (10 ^ N.of_nat 2)%N with 100%N; lia].
      * pose proof (length_zfill_large 2 (Z.abs_N fh)) as G.
        change (10 ^ N.of_nat 2)%N with 100%N in G. lia.
    + split; intros B.
      * rewrite (length_zfill_small 2 (Z.to_N fh));
          [lia | change (10 ^ N.of_nat 3)%N with 1000%N; lia].
      * pose proof (length_zfill_large 3 (Z.to_N fh)) as G.
        change (10 ^ N.of_nat 3)%N with 1000%N in G. lia.
Qed.

Lemma model_filename_datetime_length_2018 :
  exists name,
    model_filename default_max_str_digits
      (PyDatetime (mk_datetime 2018 4 20 8 0 0 0)) (PyInt (-7)) = Ok name
    /\ nth_error name 8 = Some 46%N
    /\ ((-100 < -7 < 1000)%Z -> List.length name = 12)
    /\ ((-7 <= -100 \/ 1000 <= -7)%Z -> 12 < List.length name).
Proof.
  apply (model_filename_datetime_length default_max_str_digits
           (mk_datetime 2018 4 20 8 0 0 0) (-7)).
  - reflexivity.
  - apply small_within_limit; reflexivity.
Defined.

(** ** Further facts: the routines *)

Lemma lookup_entry (a : analysis_type) (model : pyval) (paths : list string) :
  resolve_field_paths model a = Ok paths -> In paths (map snd (table a)).
Proof.
  intros H. destruct model as [| z | m | d]; try (destruct a; discriminate H).
  rewrite resolve_field_paths_str in H.
  destruct (lookup (upper (strip m)) (table a)) as [v |] eqn:E; [| discriminate].
  injection H as ->. apply lookup_In in E as (key & _ & E).
  now apply (in_map snd) in E.
Qed.

Section RoutineFacts.

Variable grid : Type.
Variable get_model_grid : string -> text -> option grid.
Variable max_str_digits : N.

Ltac finish :=
  repeat split; solve [reflexivity | intros; discriminate].

Ltac hit_or_miss d f :=
  destruct (get_model_grid d f) eqn:?; cbv; [| finish].

Lemma gh500_uv850_mslp_run (initial_time fhour model : pyval)
  (paths : list string) (fn : text) :
  Synoptic.gh500_uv850_mslp_data_dir model = Ok paths ->
  model_filename max_str_digits initial_time fhour = Ok fn ->
  snd (gh500_uv850_mslp get_model_grid max_str_digits initial_time fhour model) = Ok tt
  /\ retrievals (fst (gh500_uv850_mslp get_model_grid max_str_digits initial_time fhour model))
     = map (fun d => (d, fn)) (upto_first_miss get_model_grid fn paths)
  /\ existsb is_drawing (fst (gh500_uv850_mslp get_model_grid max_str_digits initial_time fhour model))
     = forallb (found get_model_grid fn) paths
  /\ existsb is_show (fst (gh500_uv850_mslp get_model_grid max_str_digits initial_time fhour model))
     = forallb (found get_model_grid fn) paths.
Proof.
  intros Hd Hf. pose proof (lookup_entry Synoptic500hPa model paths Hd) as Hin.
  unfold gh500_uv850_mslp. rewrite Hd, Hf. clear Hd Hf.
  simpl in Hin.
  destruct Hin as [<- | [<- | [<- | []]]]; cbv.
  - hit_or_miss "ECMWF_LR/HGT/500" fn. hit_or_miss "ECMWF_LR/UGRD/850" fn.
    hit_or_miss "ECMWF_LR/VGRD/850" fn. hit_or_miss "ECMWF_LR/PRMSL" fn.
    finish.
  - hit_or_miss "GRAPES_GFS/HGT/500" fn. hit_or_miss "GRAPES_GFS/UGRD/850" fn.
    hit_or_miss "GRAPES_GFS/VGRD/850" fn. hit_or_miss "GRAPES_GFS/PRMSL" fn.
    finish.
  - hit_or_miss "NCEP_GFS/HGT/500" fn. hit_or_miss "NCEP_GFS/UGRD/850" fn.
    hit_or_miss "NCEP_GFS/VGRD/850" fn. hit_or_miss "NCEP_GFS/PRMSL" fn.
    finish.
Qed.

Lemma cref_uv850_run (initial_time fhour model : pyval) (draw_wind : bool)
  (paths : list string) (fn : text) :
  Mesoscale.cref_uv850_data_dir model = Ok paths ->
  model_filename max_str_digits initial_time fhour = Ok fn ->
  snd (cref_uv850 get_model_grid max_str_digits initial_time fhour model draw_wind) = Ok tt
  /\ retrievals (fst (cref_uv850 get_model_grid max_str_digits initial_time fhour model draw_wind))
     = map (fun d => (d, fn))
           (upto_first_miss get_model_grid fn (wanted draw_wind paths))
  /\ existsb is_drawing
       (fst (cref_uv850 get_model_grid max_str_digits initial_time fhour model draw_wind))
     = forallb (found get_model_grid fn) (wanted draw_wind paths)
  /\ existsb is_show
       (fst (cref_uv850 get_model_grid max_str_digits initial_time fhour model draw_wind))
     = forallb (found get_model_grid fn) (wanted draw_wind paths)
  /\ (draw_wind = false ->
      List.length
        (retrievals (fst (cref_uv850 get_model_grid max_str_digits initial_time fhour model draw_wind)))
      = 1).
Proof.
  intros Hd Hf.
  pose proof (lookup_entry CompositeReflectivityAndWind model paths Hd) as Hin.
  unfold cref_uv850. rewrite Hd, Hf. clear Hd Hf.
  simpl in Hin.
  destruct Hin as [<- | [<- | [<- | [<- | []]]]]; destruct draw_wind; cbv.
  - hit_or_miss "SHANGHAI_HR/COMPOSITE_REFLECTIVITY/ENTIRE_ATMOSPHERE" fn.
    hit_or_miss "SHANGHAI_HR/UGRD/850" fn. hit_or_miss "SHANGHAI_HR/VGRD/850" fn.
    finish.
  - hit_or_miss "SHANGHAI_HR/COMPOSITE_REFLECTIVITY/ENTIRE_ATMOSPHERE" fn. finish.
  - hit_or_miss "BEIJING_MR/COMPOSITE_REFLECTIVITY/ENTIRE_ATMOSPHERE" fn.
    hit_or_miss "BEIJING_MR/UGRD/850" fn. hit_or_miss "BEIJING_MR/VGRD/850" fn.
    finish.
  - hit_or_miss "BEIJING_MR/COMPOSITE_REFLECTIVITY/ENTIRE_ATMOSPHERE" fn. finish.
  - hit_or_miss "GRAPES_MESO_HR/RADAR_COMBINATION_REFLECTIVITY" fn.
    hit_or_miss "GRAPES_MESO_HR/UGRD/850" fn. hit_or_miss "GRAPES_MESO_HR/VGRD/850" fn.
    finish.
  - hit_or_miss "GRAPES_MESO_HR/RADAR_COMBINATION_REFLECTIVITY" fn. finish.
  - hit_or_miss "GRAPES_3KM/RADAR_COMBINATION_REFLECTIVITY" fn.
    hit_or_miss "GRAPES_3KM/UGRD/850" fn. hit_or_miss "GRAPES_3KM/VGRD/850" fn.
    finish.
  - hit_or_miss "GRAPES_3KM/RADAR_COMBINATION_REFLECTIVITY" fn. finish.
Qed.

Lemma qpf_24h_run (initial_time fhour model : pyval)
  (paths : list string) (fn : text) :
  Qpf.qpf_24h_data_dir model = Ok paths ->
  model_filename max_str_digits initial_time fhour = Ok fn ->
  qpf_24h get_model_grid max_str_digits initial_time fhour model
  = match get_model_grid "ECMWF_HR/RAIN24" fn with
    | Some rain24 =>
        ([Retrieve "ECMWF_HR/RAIN24" fn; Draw "24h accumulated QPF" [rain24]; Show],
         Ok tt)
    | None =>
        ([Retrieve "ECMWF_HR/RAIN24" fn;
          Print (txt "Can not retrieve " +++ fn +++ txt " from Micaps server.")],
         Ok tt)
    end.
Proof.
  intros Hd Hf. pose proof (lookup_entry Precipitation24h model paths Hd) as Hin.
  unfold qpf_24h. rewrite Hd, Hf. clear Hd Hf.
  simpl in Hin. destruct Hin as [<- | []].
  cbv. destruct (get_model_grid "ECMWF_HR/RAIN24" fn); reflexivity.
Qed.

Lemma cref_uv850_compare_run (initial_time fhour : pyval) (draw_wind : bool)
  (fn : text) :
  model_filename max_str_digits initial_time fhour = Ok fn ->
  snd (cref_uv850_compare get_model_grid max_str_digits initial_time fhour draw_wind) = Ok tt
  /\ retrievals (fst (cref_uv850_compare get_model_grid max_str_digits initial_time fhour draw_wind))
     = map (fun d => (d, fn))
           (upto_first_miss get_model_grid fn
              (flat_map (wanted draw_wind) (map snd Mesoscale.data_dirs)))
  /\ existsb is_show
       (fst (cref_uv850_compare get_model_grid max_str_digits initial_time fhour draw_wind))
     = forallb (found get_model_grid fn)
         (flat_map (wanted draw_wind) (map snd Mesoscale.data_dirs))
  /\ panels (fst (cref_uv850_compare get_model_grid max_str_digits initial_time fhour draw_wind))
     = firstn
         (List.length
            (panels (fst (cref_uv850_compare get_model_grid max_str_digits initial_time fhour
                            draw_wind))))
         (enumerate (keys Mesoscale.data_dirs))
  /\ (existsb is_show
        (fst (cref_uv850_compare get_model_grid max_str_digits initial_time fhour draw_wind)) = true ->
      panels (fst (cref_uv850_compare get_model_grid max_str_digits initial_time fhour draw_wind))
      = enumerate (keys Mesoscale.data_dirs)).
Proof.
  intros Hf. unfold cref_uv850_compare. rewrite Hf. clear Hf.
  destruct draw_wind; cbv.
  - hit_or_miss "SHANGHAI_HR/COMPOSITE_REFLECTIVITY/ENTIRE_ATMOSPHERE" fn.
    hit_or_miss "SHANGHAI_HR/UGRD/850" fn. hit_or_miss "SHANGHAI_HR/VGRD/850" fn.
    hit_or_miss "BEIJING_MR/COMPOSITE_REFLECTIVITY/ENTIRE_ATMOSPHERE" fn.
    hit_or_miss "BEIJING_MR/UGRD/850" fn. hit_or_miss "BEIJING_MR/VGRD/850" fn.
    hit_or_miss "GRAPES_MESO_HR/RADAR_COMBINATION_REFLECTIVITY" fn.
    hit_or_miss "GRAPES_MESO_HR/UGRD/850" fn. hit_or_miss "GRAPES_MESO_HR/VGRD/850" fn.
    hit_or_miss "GRAPES_3KM/RADAR_COMBINATION_REFLECTIVITY" fn.
    hit_or_miss "GRAPES_3KM/UGRD/850" fn. hit_or_miss "GRAPES_3KM/VGRD/850" fn.
    finish.
  - hit_or_miss "SHANGHAI_HR/COMPOSITE_REFLECTIVITY/ENTIRE_ATMOSPHERE" fn.
    hit_or_miss "BEIJING_MR/COMPOSITE_REFLECTIVITY/ENTIRE_ATMOSPHERE" fn.
    hit_or_miss "GRAPES_MESO_HR/RADAR_COMBINATION_REFLECTIVITY" fn.
    hit_or_miss "GRAPES_3KM/RADAR_COMBINATION_REFLECTIVITY" fn.
    finish.
Qed.

End RoutineFacts.

Section RoutineTheorems.

Variable grid : Type.
Variable get_model_grid : string -> text -> option grid.
Variable max_str_digits : N.

(** X7. With a known model and a time that gives the file name [fn],
    [gh500_uv850_mslp] returns without raising; it asks for the resolved
    directories in their order, each under the one name [fn], and stops
    after the first that is missing; it draws, and shows the figure,
    exactly when all four grids are found. *)
Theorem gh500_uv850_mslp_requests :
  forall (initial_time fhour model : pyval) (paths : list string) (fn : text),
    Synoptic.gh500_uv850_mslp_data_dir model = Ok paths ->
    model_filename max_str_digits initial_time fhour = Ok fn ->
    snd (gh500_uv850_mslp get_model_grid max_str_digits initial_time fhour model) = Ok tt
    /\ retrievals (fst (gh500_uv850_mslp get_model_grid max_str_digits initial_time fhour model))
       = map (fun d => (d, fn)) (upto_first_miss get_model_grid fn paths)
    /\ existsb is_drawing
         (fst (gh500_uv850_mslp get_model_grid max_str_digits initial_time fhour model))
       = forallb (found get_model_grid fn) paths
    /\ existsb is_show
         (fst (gh500_uv850_mslp get_model_grid max_str_digits initial_time fhour model))
       = forallb (found get_model_grid fn) paths.
Proof.
  intros initial_time fhour model paths fn Hd Hf.
  now apply gh500_uv850_mslp_run.
Qed.

(** X8. With a known model and the file name [fn], [cref_uv850] returns
    without raising; it asks for the reflectivity directory and, with
    [draw_wind], for the two wind directories after it, all under [fn],
    stopping after the first that is missing; it draws and shows exactly
    when all it wanted was found.  Without [draw_wind] it makes one
    request only and never asks for wind. *)
Theorem cref_uv850_requests :
  forall (initial_time fhour model : pyval) (draw_wind : bool)
         (paths : list string) (fn : text),
    Mesoscale.cref_uv850_data_dir model = Ok paths ->
    model_filename max_str_digits initial_time fhour = Ok fn ->
    snd (cref_uv850 get_model_grid max_str_digits initial_time fhour model draw_wind) = Ok tt
    /\ retrievals (fst (cref_uv850 get_model_grid max_str_digits initial_time fhour model draw_wind))
       = map (fun d => (d, fn))
             (upto_first_miss get_model_grid fn (wanted draw_wind paths))
    /\ existsb is_drawing
         (fst (cref_uv850 get_model_grid max_str_digits initial_time fhour model draw_wind))
       = forallb (found get_model_grid fn) (wanted draw_wind paths)
    /\ existsb is_show
         (fst (cref_uv850 get_model_grid max_str_digits initial_time fhour model draw_wind))
       = forallb (found get_model_grid fn) (wanted draw_wind paths)
    /\ (draw_wind = false ->
        List.length
          (retrievals
             (fst (cref_uv850 get_model_grid max_str_digits initial_time fhour model draw_wind)))
        = 1).
Proof.
  intros initial_time fhour model draw_wind paths fn Hd Hf.
  now apply cref_uv850_run.
Qed.

(** X9. With a known model and the file name [fn], [qpf_24h] makes one
    request, for [ECMWF_HR/RAIN24] under [fn]; with a grid it draws and
    shows, without one it prints that [fn] could not be retrieved and
    draws nothing; either way it returns without raising. *)
Theorem qpf_24h_requests :
  forall (initial_time fhour model : pyval) (paths : list string) (fn : text),
    Qpf.qpf_24h_data_dir model = Ok paths ->
    model_filename max_str_digits initial_time fhour = Ok fn ->
    qpf_24h get_model_grid max_str_digits initial_time fhour model
    = match get_model_grid "ECMWF_HR/RAIN24" fn with
      | Some rain24 =>
          ([Retrieve "ECMWF_HR/RAIN24" fn; Draw "24h accumulated QPF" [rain24]; Show],
           Ok tt)
      | None =>
          ([Retrieve "ECMWF_HR/RAIN24" fn;
            Print (txt "Can not retrieve " +++ fn +++ txt " from Micaps server.")],
           Ok tt)
      end.
Proof.
  intros initial_time fhour model paths fn Hd Hf.
  now apply (qpf_24h_run grid get_model_grid max_str_digits initial_time fhour model paths).
Qed.

(** X10. With the file name [fn], [cref_uv850_compare] returns without
    raising, never indexing past its four panels; it goes through the four
    models in the order of the table, asking for what each wants under
    [fn], and stops at the first grid that is missing; the panels it drew
    are the first of the table, at positions 0, 1, ..., and the figure is
    shown exactly when every grid was found, all four panels being drawn. *)
Theorem cref_uv850_compare_requests :
  forall (initial_time fhour : pyval) (draw_wind : bool) (fn : text),
    model_filename max_str_digits initial_time fhour = Ok fn ->
    snd (cref_uv850_compare get_model_grid max_str_digits initial_time fhour draw_wind) = Ok tt
    /\ retrievals (fst (cref_uv850_compare get_model_grid max_str_digits initial_time fhour draw_wind))
       = map (fun d => (d, fn))
             (upto_first_miss get_model_grid fn
                (flat_map (wanted draw_wind) (map snd Mesoscale.data_dirs)))
    /\ existsb is_show
         (fst (cref_uv850_compare get_model_grid max_str_digits initial_time fhour draw_wind))
       = forallb (found get_model_grid fn)
           (flat_map (wanted draw_wind) (map snd Mesoscale.data_dirs))
    /\ panels (fst (cref_uv850_compare get_model_grid max_str_digits initial_time fhour draw_wind))
       = firstn
           (List.length
              (panels (fst (cref_uv850_compare get_model_grid max_str_digits initial_time fhour
                              draw_wind))))
           (enumerate (keys Mesoscale.data_dirs))
    /\ (existsb is_show
          (fst (cref_uv850_compare get_model_grid max_str_digits initial_time fhour draw_wind)) = true ->
        panels (fst (cref_uv850_compare get_model_grid max_str_digits initial_time fhour draw_wind))
        = enumerate (keys Mesoscale.data_dirs)).
Proof.
  intros initial_time fhour draw_wind fn Hf.
  now apply cref_uv850_compare_run.
Qed.

(** X11. A routine that raises has asked for nothing: the exception is
    that of the model lookup or, the model being known, that of the file
    name ([cref_uv850_compare], which takes no model, only the latter);
    indexing the resolved list never raises. *)
Theorem routines_raise_before_any_request :
  forall (initial_time fhour model : pyval) (draw_wind : bool) (e : exn),
    (snd (gh500_uv850_mslp get_model_grid max_str_digits initial_time fhour model) = Raise e ->
     fst (gh500_uv850_mslp get_model_grid max_str_digits initial_time fhour model) = []
     /\ (Synoptic.gh500_uv850_mslp_data_dir model = Raise e
         \/ (exists paths, Synoptic.gh500_uv850_mslp_data_dir model = Ok paths)
            /\ model_filename max_str_digits initial_time fhour = Raise e))
    /\ (snd (cref_uv850 get_model_grid max_str_digits initial_time fhour model draw_wind) = Raise e ->
        fst (cref_uv850 get_model_grid max_str_digits initial_time fhour model draw_wind) = []
        /\ (Mesoscale.cref_uv850_data_dir model = Raise e
            \/ (exists paths, Mesoscale.cref_uv850_data_dir model = Ok paths)
               /\ model_filename max_str_digits initial_time fhour = Raise e))
    /\ (snd (qpf_24h get_model_grid max_str_digits initial_time fhour model) = Raise e ->
        fst (qpf_24h get_model_grid max_str_digits initial_time fhour model) = []
        /\ (Qpf.qpf_24h_data_dir model = Raise e
            \/ (exists paths, Qpf.qpf_24h_data_dir model = Ok paths)
               /\ model_filename max_str_digits initial_time fhour = Raise e))
    /\ (snd (cref_uv850_compare get_model_grid max_str_digits initial_time fhour draw_wind) = Raise e ->
        fst (cref_uv850_compare get_model_grid max_str_digits initial_time fhour draw_wind) = []
        /\ model_filename max_str_digits initial_time fhour = Raise e).
Proof.
  intros initial_time fhour model draw_wind e. repeat apply conj.
  - pose proof (gh500_uv850_mslp_run grid get_model_grid max_str_digits initial_time fhour model) as R.
    revert R. unfold gh500_uv850_mslp.
    destruct (Synoptic.gh500_uv850_mslp_data_dir model) as [paths | e0].
    + destruct (model_filename max_str_digits initial_time fhour) as [fn | e1].
      * intros R H. destruct (R paths fn eq_refl eq_refl) as [R1 _]. congruence.
      * cbn. intros _ [= ->]. split; [reflexivity |].
        right. split; [now exists paths | reflexivity].
    + cbn. intros _ [= ->]. split; [reflexivity | now left].
  - pose proof (cref_uv850_run grid get_model_grid max_str_digits initial_time fhour model draw_wind) as R.
    revert R. unfold cref_uv850.
    destruct (Mesoscale.cref_uv850_data_dir model) as [paths | e0].
    + destruct (model_filename max_str_digits initial_time fhour) as [fn | e1].
      * intros R H. destruct (R paths fn eq_refl eq_refl) as [R1 _]. congruence.
      * cbn. intros _ [= ->]. split; [reflexivity |].
        right. split; [now exists paths | reflexivity].
    + cbn. intros _ [= ->]. split; [reflexivity | now left].
  - pose proof (qpf_24h_run grid get_model_grid max_str_digits initial_time fhour model) as R.
    revert R. unfold qpf_24h.
    destruct (Qpf.qpf_24h_data_dir model) as [paths | e0].
    + destruct (model_filename max_str_digits initial_time fhour) as [fn | e1].
      * intros R H. rewrite (R paths fn eq_refl eq_refl) in H.
        destruct (get_model_grid "ECMWF_HR/RAIN24" fn); discriminate H.
      * cbn. intros _ [= ->]. split; [reflexivity |].
        right. split; [now exists paths | reflexivity].
    + cbn. intros _ [= ->]. split; [reflexivity | now left].
  - pose proof (cref_uv850_compare_run grid get_model_grid max_str_digits initial_time fhour draw_wind)
      as R.
    revert R. unfold cref_uv850_compare.
    destruct (model_filename max_str_digits initial_time fhour) as [fn | e1].
    + intros R H. destruct (R fn eq_refl) as [R1 _]. congruence.
    + cbn. intros _ [= ->]. now split.
Qed.

End RoutineTheorems.

Lemma gh500_uv850_mslp_requests_missing_v :
  retrievals
    (fst (gh500_uv850_mslp
            (fun d _ => if String.eqb d "ECMWF_LR/VGRD/850" then None else Some tt)
            default_max_str_digits
            (PyStr (txt "18042008")) (PyInt 3) (PyStr (txt " ecmwf "))))
  = [("ECMWF_LR/HGT/500", txt "18042008.003");
     ("ECMWF_LR/UGRD/850", txt "18042008.003");
     ("ECMWF_LR/VGRD/850", txt "18042008.003")].
Proof.
  refine (proj1 (proj2 (gh500_uv850_mslp_requests unit
                          (fun d _ => if String.eqb d "ECMWF_LR/VGRD/850"
                                      then None else Some tt)
                          default_max_str_digits
                          (PyStr (txt "18042008")) (PyInt 3) (PyStr (txt " ecmwf "))
                          ["ECMWF_LR/HGT/500"; "ECMWF_LR/UGRD/850";
                           "ECMWF_LR/VGRD/850"; "ECMWF_LR/PRMSL"]
                          (txt "18042008.003") _ _)));
    [vm_compute; reflexivity |].
  rewrite model_filename_str by (apply small_within_limit; reflexivity).
  vm_compute. reflexivity.
Defined.

Lemma cref_uv850_requests_no_wind :
  retrievals
    (fst (cref_uv850 (fun _ _ => Some tt) default_max_str_digits
            (PyStr (txt "18042008")) (PyInt 3) (PyStr (txt "ShangHai")) false))
  = [("SHANGHAI_HR/COMPOSITE_REFLECTIVITY/ENTIRE_ATMOSPHERE", txt "18042008.003")].
Proof.
  refine (proj1 (proj2 (cref_uv850_requests unit (fun _ _ => Some tt)
                          default_max_str_digits
                          (PyStr (txt "18042008")) (PyInt 3) (PyStr (txt "ShangHai")) false
                          ["SHANGHAI_HR/COMPOSITE_REFLECTIVITY/ENTIRE_ATMOSPHERE";
                           "SHANGHAI_HR/UGRD/850"; "SHANGHAI_HR/VGRD/850"]
                          (txt "18042008.003") _ _)));
    [vm_compute; reflexivity |].
  rewrite model_filename_str by (apply small_within_limit; reflexivity).
  vm_compute. reflexivity.
Defined.

Lemma qpf_24h_requests_missing :
  qpf_24h (fun _ _ => @None unit) default_max_str_digits
    (PyStr (txt "18042008")) (PyInt 24) (PyStr (txt "ECMWF"))
  = ([Retrieve "ECMWF_HR/RAIN24" (txt "18042008.024");
      Print (txt "Can not retrieve 18042008.024 from Micaps server.")],
     Ok tt).
Proof.
  refine (qpf_24h_requests unit (fun _ _ => None) default_max_str_digits
            (PyStr (txt "18042008")) (PyInt 24) (PyStr (txt "ECMWF"))
            ["ECMWF_HR/RAIN24"] (txt "18042008.024") _ _);
    [vm_compute; reflexivity |].
  rewrite model_filename_str by (apply small_within_limit; reflexivity).
  vm_compute. reflexivity.
Defined.

Lemma cref_uv850_compare_requests_missing_third :
  panels
    (fst (cref_uv850_compare
            (fun d _ => if String.prefix "GRAPES_MESO_HR" d then None else Some tt)
            default_max_str_digits
            (PyStr (txt "18042008")) (PyInt 3) false))
  = [(0%Z, "SHANGHAI"); (1%Z, "BEIJING")].
Proof.
  assert (F : model_filename default_max_str_digits (PyStr (txt "18042008")) (PyInt 3)
              = Ok (txt "18042008.003")).
  { rewrite model_filename_str by (apply small_within_limit; reflexivity).
    vm_compute. reflexivity. }
  pose proof (cref_uv850_compare_requests unit
                (fun d _ => if String.prefix "GRAPES_MESO_HR" d then None else Some tt)
                default_max_str_digits
                (PyStr (txt "18042008")) (PyInt 3) false (txt "18042008.003") F)
    as (_ & _ & _ & P & _).
  etransitivity; [exact P |].
  unfold cref_uv850_compare. rewrite F. vm_compute. reflexivity.
Defined.

Lemma routines_raise_before_any_request_qpf :
  fst (qpf_24h (fun _ _ => Some tt) default_max_str_digits
         PyNone PyNone (PyStr (txt "GRAPES"))) = []
  /\ (Qpf.qpf_24h_data_dir (PyStr (txt "GRAPES")) = Raise (ValueError Qpf.unknown_model)
      \/ (exists paths, Qpf.qpf_24h_data_dir (PyStr (txt "GRAPES")) = Ok paths)
         /\ model_filename default_max_str_digits PyNone PyNone
            = Raise (ValueError Qpf.unknown_model)).
Proof.
  apply (proj1 (proj2 (proj2
           (routines_raise_before_any_request unit (fun _ _ => Some tt)
              default_max_str_digits
              PyNone PyNone (PyStr (txt "GRAPES")) false (ValueError Qpf.unknown_model))))).
  vm_compute. reflexivity.
Defined.
